(** * adf-build/config.py: the adfconfig model, its validation and its persistence

    A shallow embedding of [Config] from
    [src/lambda_codebase/initial_commit/bootstrap_repository/adf-build/config.py].

    The loaded YAML document is a Python value; Python exceptions are the
    left summand of a small error monad; the calls to
    [ParameterStore.put_parameter] are recorded in a trace. *)

From Stdlib Require Import String Ascii List ZArith Bool Lia.
Import ListNotations.
Local Open Scope string_scope.

(* ================================================================== *)
(** ** Python values *)
(* ================================================================== *)

(** The values [yaml.load] builds for an adfconfig document: [None],
    booleans, integers, strings, lists and dicts.  Dicts keep their
    insertion order; their keys are strings, as every key of the
    adfconfig schema is. *)
#[warnings="-register-all"]
Inductive PyVal : Type :=
| VNone
| VBool (b : bool)
| VInt (z : Z)
| VStr (s : string)
| VList (l : list PyVal)
| VDict (kvs : list (string * PyVal)).

(** The exceptions the module can raise or let escape. *)
Inductive PyErr : Type :=
| InvalidConfigError (msg : string)
| AttributeError
| TypeError
| IndexError
| KeyError
| ValueError.

Module Exc.

Definition t (A : Type) : Type := (PyErr + A)%type.

Definition ret {A} (a : A) : t A := inr a.

Definition raise {A} (e : PyErr) : t A := inl e.

Definition bind {A B} (m : t A) (f : A -> t B) : t B :=
  match m with
  | inl e => inl e
  | inr a => f a
  end.

End Exc.

Declare Scope exc_scope.
Delimit Scope exc_scope with exc.
Notation "x <- m ;; k" := (Exc.bind m (fun x => k))
  (at level 61, m at next level, right associativity) : exc_scope.
Notation "' pat <- m ;; k" := (Exc.bind m (fun x => match x with pat => k end))
  (at level 61, pat pattern, m at next level, right associativity) : exc_scope.
Notation "m ;;; k" := (Exc.bind m (fun _ => k))
  (at level 61, right associativity) : exc_scope.
Local Open Scope exc_scope.

(* ------------------------------------------------------------------ *)
(** *** Dict and sequence primitives *)

(** [kvs[k]] when present. *)
Fixpoint dict_get (kvs : list (string * PyVal)) (k : string) : option PyVal :=
  match kvs with
  | [] => None
  | (k', v) :: rest => if String.eqb k' k then Some v else dict_get rest k
  end.

Definition dict_mem (kvs : list (string * PyVal)) (k : string) : bool :=
  match dict_get kvs k with
  | Some _ => true
  | None => false
  end.

(** [kvs[k] = v]: an existing key keeps its position, a new key goes last. *)
Fixpoint dict_set (kvs : list (string * PyVal)) (k : string) (v : PyVal)
  : list (string * PyVal) :=
  match kvs with
  | [] => [(k, v)]
  | (k', v') :: rest =>
      if String.eqb k' k then (k', v) :: rest else (k', v') :: dict_set rest k v
  end.

(** [d.get(k, default)]: only dicts have a [get] method. *)
Definition py_get_default (d : PyVal) (k : string) (default : PyVal) : Exc.t PyVal :=
  match d with
  | VDict kvs =>
      Exc.ret (match dict_get kvs k with
               | Some v => v
               | None => default
               end)
  | _ => Exc.raise AttributeError
  end.

(** [d.get(k)] *)
Definition py_get (d : PyVal) (k : string) : Exc.t PyVal :=
  py_get_default d k VNone.

(** [v[0]]: the first element of a list, the first character of a string;
    a dict with string keys has no key [0]; the other values are not
    subscriptable. *)
Definition py_index0 (v : PyVal) : Exc.t PyVal :=
  match v with
  | VList (x :: _) => Exc.ret x
  | VList [] => Exc.raise IndexError
  | VStr (String c _) => Exc.ret (VStr (String c EmptyString))
  | VStr EmptyString => Exc.raise IndexError
  | VDict _ => Exc.raise KeyError
  | VNone | VBool _ | VInt _ => Exc.raise TypeError
  end.

(** [x is None]; [x == None] agrees with it on these values. *)
Definition is_none (v : PyVal) : bool :=
  match v with
  | VNone => true
  | _ => false
  end.

(** [v == s] for a string literal [s]. *)
Definition eq_str (v : PyVal) (s : string) : bool :=
  match v with
  | VStr s' => String.eqb s' s
  | _ => false
  end.

(** Truth value of [v] in an [if]. *)
Definition py_truthy (v : PyVal) : bool :=
  match v with
  | VNone => false
  | VBool b => b
  | VInt z => negb (Z.eqb z 0)
  | VStr EmptyString => false
  | VStr _ => true
  | VList [] => false
  | VList _ => true
  | VDict [] => false
  | VDict _ => true
  end.

(** [isinstance(v, list)] *)
Definition is_list (v : PyVal) : bool :=
  match v with
  | VList _ => true
  | _ => false
  end.

(* ================================================================== *)
(** ** The Config object *)
(* ================================================================== *)

(** A [ParameterStore] client is known by the region it was built for. *)
Record ParameterStore : Type := { region : PyVal }.

(** The instance attributes, in the order [__init__] creates them. *)
Record Config : Type := {
  parameters_client : ParameterStore;
  config_path : string;
  organization_id : PyVal;
  client_deployment_region : option ParameterStore;
  notification_type : PyVal;
  notification_endpoint : PyVal;
  config_contents : PyVal;
  config : PyVal;
  deployment_account_region : PyVal;
  notification_channel : PyVal;
  protected : PyVal;
  target_regions : PyVal;
  cross_account_access_role : PyVal;
  extensions : PyVal
}.

Definition set_client_deployment_region (self : Config) (c : option ParameterStore) : Config :=
  {| parameters_client := parameters_client self;
     config_path := config_path self;
     organization_id := organization_id self;
     client_deployment_region := c;
     notification_type := notification_type self;
     notification_endpoint := notification_endpoint self;
     config_contents := config_contents self;
     config := config self;
     deployment_account_region := deployment_account_region self;
     notification_channel := notification_channel self;
     protected := protected self;
     target_regions := target_regions self;
     cross_account_access_role := cross_account_access_role self;
     extensions := extensions self |}.

Definition set_deployment_account_region (self : Config) (v : PyVal) : Config :=
  {| parameters_client := parameters_client self;
     config_path := config_path self;
     organization_id := organization_id self;
     client_deployment_region := client_deployment_region self;
     notification_type := notification_type self;
     notification_endpoint := notification_endpoint self;
     config_contents := config_contents self;
     config := config self;
     deployment_account_region := v;
     notification_channel := notification_channel self;
     protected := protected self;
     target_regions := target_regions self;
     cross_account_access_role := cross_account_access_role self;
     extensions := extensions self |}.

Definition set_target_regions (self : Config) (v : PyVal) : Config :=
  {| parameters_client := parameters_client self;
     config_path := config_path self;
     organization_id := organization_id self;
     client_deployment_region := client_deployment_region self;
     notification_type := notification_type self;
     notification_endpoint := notification_endpoint self;
     config_contents := config_contents self;
     config := config self;
     deployment_account_region := deployment_account_region self;
     notification_channel := notification_channel self;
     protected := protected self;
     target_regions := v;
     cross_account_access_role := cross_account_access_role self;
     extensions := extensions self |}.

Definition set_extensions (self : Config) (v : PyVal) : Config :=
  {| parameters_client := parameters_client self;
     config_path := config_path self;
     organization_id := organization_id self;
     client_deployment_region := client_deployment_region self;
     notification_type := notification_type self;
     notification_endpoint := notification_endpoint self;
     config_contents := config_contents self;
     config := config self;
     deployment_account_region := deployment_account_region self;
     notification_channel := notification_channel self;
     protected := protected self;
     target_regions := target_regions self;
     cross_account_access_role := cross_account_access_role self;
     extensions := v |}.

Definition set_config_contents (self : Config) (v : PyVal) : Config :=
  {| parameters_client := parameters_client self;
     config_path := config_path self;
     organization_id := organization_id self;
     client_deployment_region := client_deployment_region self;
     notification_type := notification_type self;
     notification_endpoint := notification_endpoint self;
     config_contents := v;
     config := config self;
     deployment_account_region := deployment_account_region self;
     notification_channel := notification_channel self;
     protected := protected self;
     target_regions := target_regions self;
     cross_account_access_role := cross_account_access_role self;
     extensions := extensions self |}.

(** [AVAILABLE_EXTENSIONS] *)
Definition AVAILABLE_EXTENSIONS : list string := ["terraform"].

Definition missing_properties_msg : string :=
  "adfconfig.yml is missing required properties. Please see the documentation.".

Definition scp_msg : string :=
  "Configuration settings for organizations should be either enabled or disabled".

Definition single_region_msg : string :=
  "ADF currently only supports a single Deployment Account region".

(* ------------------------------------------------------------------ *)
(** *** [_validate] *)

(** Lines 54-66: the tuple is built first (so [self.config.get] runs on
    whatever [self.config] is), then searched for [None]. *)
Definition check_required (self : Config) : Exc.t unit :=
  moves <- py_get (config self) "moves" ;;
  endpoint <- py_get (config self) "main-notification-endpoint" ;;
  if existsb is_none
       [cross_account_access_role self;
        config self;
        deployment_account_region self;
        organization_id self;
        target_regions self;
        moves;
        endpoint]
  then Exc.raise (InvalidConfigError missing_properties_msg)
  else Exc.ret tt.

(** Lines 68-78: only the failed [assert] is turned into an
    [InvalidConfigError]; any other exception escapes as it is. *)
Definition check_scp (self : Config) : Exc.t unit :=
  scp <- py_get (config self) "scp" ;;
  if py_truthy scp then
    scp' <- py_get (config self) "scp" ;;
    keep <- py_get scp' "keep-default-scp" ;;
    if eq_str keep "enabled" || eq_str keep "disabled"
    then Exc.ret tt
    else Exc.raise (InvalidConfigError scp_msg)
  else Exc.ret tt.

(** Lines 80-86: [[x] = l] needs [l] to have exactly one element. *)
Definition check_deployment_account_region (self : Config) : Exc.t Config :=
  match deployment_account_region self with
  | VList l =>
      if (1 <? length l)%nat
      then Exc.raise (InvalidConfigError single_region_msg)
      else match l with
           | [x] => Exc.ret (set_deployment_account_region self x)
           | _ => Exc.raise ValueError
           end
  | _ => Exc.ret self
  end.

(** Lines 88-89. *)
Definition normalize_target_regions (self : Config) : Config :=
  if is_list (target_regions self)
  then self
  else set_target_regions self (VList [target_regions self]).

Definition _validate (self : Config) : Exc.t Config :=
  check_required self ;;;
  check_scp self ;;;
  self <- check_deployment_account_region self ;;
  Exc.ret (normalize_target_regions self).

(* ------------------------------------------------------------------ *)
(** *** [_configure_default_extensions_behavior] *)

Definition default_extension : PyVal := VDict [("enabled", VBool false)].

(** [AVAILABLE_EXTENSIONS - self.extensions.keys()], then one item
    assignment per name left. *)
Definition _configure_default_extensions_behavior (self : Config) : Exc.t Config :=
  match extensions self with
  | VDict kvs =>
      let unconfigured :=
        filter (fun name => negb (dict_mem kvs name)) AVAILABLE_EXTENSIONS in
      Exc.ret
        (set_extensions self
           (VDict (fold_left (fun acc name => dict_set acc name default_extension)
                     unconfigured kvs)))
  | _ => Exc.raise AttributeError
  end.

(* ------------------------------------------------------------------ *)
(** *** [_parse_config] *)

(** The lookups of lines 103-111 and 128, named after what they read. *)
Definition doc_regions (contents : PyVal) : Exc.t PyVal :=
  py_get_default contents "regions" (VDict []).

Definition doc_targets (contents : PyVal) : Exc.t PyVal :=
  r <- doc_regions contents ;; py_get_default r "targets" (VList []).

Definition doc_deployment_account (contents : PyVal) : Exc.t PyVal :=
  r <- doc_regions contents ;; py_get r "deployment-account".

Definition doc_cross_account_access (contents : PyVal) : Exc.t PyVal :=
  r <- py_get_default contents "roles" (VDict []) ;; py_get r "cross-account-access".

Definition doc_config (contents : PyVal) : Exc.t PyVal :=
  py_get contents "config".

Definition doc_extensions (contents : PyVal) : Exc.t PyVal :=
  py_get_default contents "extensions" (VDict []).

(** Line 107 *)
Definition parse_target_regions (regions : PyVal) : Exc.t PyVal :=
  first <- py_index0 regions ;;
  Exc.ret (if is_none first then VList [] else regions).

(** Lines 116-127: [(notification_type, notification_endpoint,
    notification_channel)]. *)
Definition parse_notification (config : PyVal) : Exc.t (PyVal * PyVal * PyVal) :=
  endpoints <- py_get config "main-notification-endpoint" ;;
  first <- py_index0 endpoints ;;
  adf_config_notification_type <- py_get first "type" ;;
  let notification_type :=
    VStr (if eq_str adf_config_notification_type "slack" then "lambda" else "email") in
  endpoints' <- py_get config "main-notification-endpoint" ;;
  first' <- py_index0 endpoints' ;;
  notification_endpoint <- py_get first' "target" ;;
  let notification_channel :=
    if eq_str notification_type "email" then VNone else notification_endpoint in
  Exc.ret (notification_type, notification_endpoint, notification_channel).

(** The dict that [self.extensions] names is the one stored under
    [extensions] in [config_contents] when that key is there (and a fresh
    one otherwise), so the item assignments of the defaulting show through
    [config_contents] too. *)
Definition alias_extensions (contents extensions : PyVal) : PyVal :=
  match contents with
  | VDict kvs => if dict_mem kvs "extensions"
                 then VDict (dict_set kvs "extensions" extensions)
                 else contents
  | _ => contents
  end.

(** Lines 103-129: everything [_parse_config] does before [_validate]. *)
Definition parse_fields (self : Config) : Exc.t Config :=
  let contents := config_contents self in
  regions <- doc_targets contents ;;
  deployment_account_region <- doc_deployment_account contents ;;
  target_regions <- parse_target_regions regions ;;
  cross_account_access_role <- doc_cross_account_access contents ;;
  config <- doc_config contents ;;
  protected <- py_get_default config "protected" (VList []) ;;
  '(notification_type, notification_endpoint, notification_channel) <-
     parse_notification config ;;
  extensions0 <- doc_extensions contents ;;
  self <- _configure_default_extensions_behavior
    {| parameters_client := parameters_client self;
       config_path := config_path self;
       organization_id := organization_id self;
       client_deployment_region := client_deployment_region self;
       notification_type := notification_type;
       notification_endpoint := notification_endpoint;
       config_contents := contents;
       config := config;
       deployment_account_region := deployment_account_region;
       notification_channel := notification_channel;
       protected := protected;
       target_regions := target_regions;
       cross_account_access_role := cross_account_access_role;
       extensions := extensions0 |} ;;
  Exc.ret (set_config_contents self (alias_extensions contents (extensions self))).

Definition _parse_config (self : Config) : Exc.t Config :=
  self <- parse_fields self ;;
  _validate self.

(* ------------------------------------------------------------------ *)
(** *** [__init__] and [_load_config_file] *)

(** The two environment variables [__init__] reads. *)
Record Environ : Type := {
  AWS_REGION : option string;
  ORGANIZATION_ID : option string
}.

(** [os.environ[name]] *)
Definition environ_get (v : option string) : Exc.t string :=
  match v with
  | Some s => Exc.ret s
  | None => Exc.raise KeyError
  end.

(** Lines 28-43, once [parameters_client], [config_path] and
    [organization_id] are known. *)
Definition init_attributes (parameters_client : ParameterStore)
    (config_path organization_id : string) : Config :=
  {| parameters_client := parameters_client;
     config_path := config_path;
     organization_id := VStr organization_id;
     client_deployment_region := None;
     notification_type := VNone;
     notification_endpoint := VNone;
     config_contents := VNone;
     config := VNone;
     deployment_account_region := VNone;
     notification_channel := VNone;
     protected := VNone;
     target_regions := VList [];
     cross_account_access_role := VNone;
     extensions := VNone |}.

(** [loaded] is what [yaml.load] returned for the file at
    [self.config_path]; reading and parsing the file are the loader's. *)
Definition _load_config_file (self : Config) (loaded : PyVal) : Exc.t Config :=
  _parse_config (set_config_contents self loaded).

(** Construction from the resolved arguments. *)
Definition construct (parameters_client : ParameterStore)
    (config_path organization_id : string) (loaded : PyVal) : Exc.t Config :=
  _load_config_file (init_attributes parameters_client config_path organization_id) loaded.

Definition __init__ (env : Environ) (parameter_store : option ParameterStore)
    (config_path : option string) (loaded : PyVal) : Exc.t Config :=
  parameters_client <-
    match parameter_store with
    | Some ps => Exc.ret ps
    | None => r <- environ_get (AWS_REGION env) ;; Exc.ret {| region := VStr r |}
    end ;;
  let config_path :=
    match config_path with
    | Some (String c s) => String c s
    | _ => "./adfconfig.yml"
    end in
  organization_id <- environ_get (ORGANIZATION_ID env) ;;
  construct parameters_client config_path organization_id loaded.

(* ================================================================== *)
(** ** Persistence *)
(* ================================================================== *)

(** One call [client.put_parameter(key, value)]. *)
Record PutCall : Type := {
  put_client : ParameterStore;
  put_key : string;
  put_value : PyVal
}.

(** Exceptions plus the trace of the calls made so far: the calls made
    before an exception stay made. *)
Module IO.

Definition t (A : Type) : Type := (list PutCall * Exc.t A)%type.

Definition ret {A} (a : A) : t A := ([], inr a).

Definition lift {A} (m : Exc.t A) : t A := ([], m).

Definition bind {A B} (m : t A) (f : A -> t B) : t B :=
  match snd m with
  | inl e => (fst m, inl e)
  | inr a => ((fst m ++ fst (f a))%list, snd (f a))
  end.

Definition trace {A} (m : t A) : list PutCall := fst m.

Definition result {A} (m : t A) : Exc.t A := snd m.

(** A [for] loop: the body runs on each element in turn, and the first
    exception ends the loop. *)
Fixpoint for_each {A} (l : list A) (body : A -> t unit) : t unit :=
  match l with
  | [] => ret tt
  | x :: rest => bind (body x) (fun _ => for_each rest body)
  end.

End IO.

Declare Scope io_scope.
Delimit Scope io_scope with io.
Notation "x <- m ;; k" := (IO.bind m (fun x => k))
  (at level 61, m at next level, right associativity) : io_scope.
Notation "m ;;; k" := (IO.bind m (fun _ => k))
  (at level 61, right associativity) : io_scope.

(** Modelled from the spec: [ParameterStore.put_parameter] of
    [parameter_store.py], a capability [put_parameter(key, value) -> ()]
    that writes the pair to the store of the client's region. *)
Definition put_parameter (client : ParameterStore) (key : string) (value : PyVal)
  : IO.t unit :=
  ([{| put_client := client; put_key := key; put_value := value |}], inr tt).

(** A value of [self.__dict__]: a document value or a client object. *)
Inductive Attr : Type :=
| AVal (v : PyVal)
| AObj (o : ParameterStore).

Definition __dict__ (self : Config) : list (string * Attr) :=
  [("parameters_client", AObj (parameters_client self));
   ("config_path", AVal (VStr (config_path self)));
   ("organization_id", AVal (organization_id self));
   ("client_deployment_region",
     match client_deployment_region self with
     | Some c => AObj c
     | None => AVal VNone
     end);
   ("notification_type", AVal (notification_type self));
   ("notification_endpoint", AVal (notification_endpoint self));
   ("config_contents", AVal (config_contents self));
   ("config", AVal (config self));
   ("deployment_account_region", AVal (deployment_account_region self));
   ("notification_channel", AVal (notification_channel self));
   ("protected", AVal (protected self));
   ("target_regions", AVal (target_regions self));
   ("cross_account_access_role", AVal (cross_account_access_role self));
   ("extensions", AVal (extensions self))].

(** The names [_store_config] skips. *)
Definition excluded_keys : list string :=
  ["client"; "client_deployment_region"; "parameters_client"; "config_contents";
   "config_path"; "notification_endpoint"; "notification_type"; "extensions"].

Definition excluded (key : string) : bool := existsb (String.eqb key) excluded_keys.

(** [d.items()] *)
Definition py_items (d : PyVal) : Exc.t (list (string * PyVal)) :=
  match d with
  | VDict kvs => Exc.ret kvs
  | _ => Exc.raise AttributeError
  end.

(** The elements [for x in v] visits: the keys of a dict, the elements of
    a list, the characters of a string. *)
Definition py_iter (v : PyVal) : Exc.t (list PyVal) :=
  match v with
  | VDict kvs => Exc.ret (map (fun kv => VStr (fst kv)) kvs)
  | VList l => Exc.ret l
  | VStr s => Exc.ret (map (fun c => VStr (String c EmptyString)) (list_ascii_of_string s))
  | VNone | VBool _ | VInt _ => Exc.raise TypeError
  end.

(** [l[i]] for an integer [i], negative indices counting from the end. *)
Definition seq_index {A} (l : list A) (i : Z) : Exc.t A :=
  let n := Z.of_nat (length l) in
  let j := if (i <? 0)%Z then (i + n)%Z else i in
  if ((j <? 0) || (n <=? j))%Z then Exc.raise IndexError
  else match nth_error l (Z.to_nat j) with
       | Some x => Exc.ret x
       | None => Exc.raise IndexError
       end.

(** [v[k]] *)
Definition py_getitem (v k : PyVal) : Exc.t PyVal :=
  match v with
  | VDict kvs =>
      match k with
      | VStr s => match dict_get kvs s with
                  | Some x => Exc.ret x
                  | None => Exc.raise KeyError
                  end
      | VList _ | VDict _ => Exc.raise TypeError
      | VNone | VBool _ | VInt _ => Exc.raise KeyError
      end
  | VList l =>
      match k with
      | VInt i => seq_index l i
      | VBool b => seq_index l (if b then 1 else 0)%Z
      | _ => Exc.raise TypeError
      end
  | VStr s =>
      match k with
      | VInt i =>
          c <- seq_index (list_ascii_of_string s) i ;; Exc.ret (VStr (String c EmptyString))
      | VBool b =>
          c <- seq_index (list_ascii_of_string s) (if b then 1 else 0)%Z ;;
          Exc.ret (VStr (String c EmptyString))
      | _ => Exc.raise TypeError
      end
  | VNone | VBool _ | VInt _ => Exc.raise TypeError
  end.

Section Persist.

(** [ADF_VERSION], read from the environment when the module is loaded. *)
Variable ADF_VERSION : string.

(** Python's [repr] on document values, and the default [repr] of an
    object; [str] is [repr] on everything but strings. *)
Variable py_repr : PyVal -> string.
Variable object_repr : ParameterStore -> string.

Definition py_str (v : PyVal) : string :=
  match v with
  | VStr s => s
  | _ => py_repr v
  end.

Definition attr_str (a : Attr) : string :=
  match a with
  | AVal v => py_str v
  | AObj o => object_repr o
  end.

(** [f"/adf/extensions/{extension}/{attribute}"] *)
Definition extension_key (extension : string) (attribute : PyVal) : string :=
  "/adf/extensions/" ++ extension ++ "/" ++ py_str attribute.

Local Open Scope io_scope.

(** Lines 156-167 *)
Definition store_attributes (self : Config) : IO.t unit :=
  IO.for_each (__dict__ self)
    (fun '(key, value) =>
       if negb (excluded key)
       then put_parameter (parameters_client self) key (VStr (attr_str value))
       else IO.ret tt).

(** Lines 169-174 *)
Definition store_extensions (self : Config) : IO.t unit :=
  items <- IO.lift (py_items (extensions self)) ;;
  IO.for_each items
    (fun '(extension, attributes) =>
       elements <- IO.lift (py_iter attributes) ;;
       IO.for_each elements
         (fun attribute =>
            v <- IO.lift (py_getitem attributes attribute) ;;
            put_parameter (parameters_client self)
              (extension_key extension attribute) (VStr (py_str v)))).

Definition _store_config (self : Config) : IO.t unit :=
  store_attributes self ;;; store_extensions self.

Definition _store_cross_region_config (self : Config) : IO.t Config :=
  let client := {| region := deployment_account_region self |} in
  let self := set_client_deployment_region self (Some client) in
  put_parameter client "adf_version" (VStr ADF_VERSION) ;;;
  put_parameter client "cross_account_access_role" (cross_account_access_role self) ;;;
  IO.ret self.

Definition store_config (self : Config) : IO.t Config :=
  _store_config self ;;; _store_cross_region_config self.

End Persist.

(* ================================================================== *)
(** ** Well-formed documents *)
(* ================================================================== *)

(** What each part of a document must look like for construction to go
    through; [construct_succeeds_iff] shows that together they are exactly
    the documents [Config] accepts. *)

(** [regions.targets] can be indexed at [0]. *)
Definition targets_ok (d : PyVal) : bool :=
  match doc_targets d with
  | inr (VList (_ :: _)) => true
  | inr (VStr (String _ _)) => true
  | _ => false
  end.

(** [regions.deployment-account] is there and is not a list, or is a list
    of one element. *)
Definition deployment_account_ok (d : PyVal) : bool :=
  match doc_deployment_account d with
  | inr VNone => false
  | inr (VList [_]) => true
  | inr (VList _) => false
  | inr _ => true
  | inl _ => false
  end.

(** [roles.cross-account-access] is there. *)
Definition role_ok (d : PyVal) : bool :=
  match doc_cross_account_access d with
  | inr v => negb (is_none v)
  | inl _ => false
  end.

(** [config.moves] is there. *)
Definition moves_ok (d : PyVal) : bool :=
  match doc_config d with
  | inr (VDict c) =>
      match dict_get c "moves" with
      | Some v => negb (is_none v)
      | None => false
      end
  | _ => false
  end.

(** [config.main-notification-endpoint] is a list whose first entry is a
    mapping. *)
Definition notification_ok (d : PyVal) : bool :=
  match doc_config d with
  | inr (VDict c) =>
      match dict_get c "main-notification-endpoint" with
      | Some (VList (VDict _ :: _)) => true
      | _ => false
      end
  | _ => false
  end.

(** The value of [keep-default-scp] is one of the two accepted words. *)
Definition keep_default_scp_accepted (scp : list (string * PyVal)) : bool :=
  match dict_get scp "keep-default-scp" with
  | Some v => eq_str v "enabled" || eq_str v "disabled"
  | None => false
  end.

(** [config.scp] is absent or falsy, or a mapping with an accepted
    [keep-default-scp]. *)
Definition scp_ok (d : PyVal) : bool :=
  match doc_config d with
  | inr (VDict c) =>
      match dict_get c "scp" with
      | None => true
      | Some (VDict (kv :: s)) => keep_default_scp_accepted (kv :: s)
      | Some v => negb (py_truthy v)
      end
  | _ => false
  end.

(** [extensions] is absent or a mapping. *)
Definition extensions_ok (d : PyVal) : bool :=
  match doc_extensions d with
  | inr (VDict _) => true
  | _ => false
  end.

Definition valid_document (d : PyVal) : bool :=
  targets_ok d && deployment_account_ok d && role_ok d && moves_ok d
  && notification_ok d && scp_ok d && extensions_ok d.

(** The extensions after defaulting. *)
Definition with_default_extensions (kvs : list (string * PyVal)) : list (string * PyVal) :=
  fold_left (fun acc name => dict_set acc name default_extension)
    (filter (fun name => negb (dict_mem kvs name)) AVAILABLE_EXTENSIONS) kvs.

(** The object [parse_fields] leaves behind, from the values it read. *)
Definition parsed (self : Config)
    (target_regions deployment_account_region cross_account_access_role
     config protected notification_type notification_endpoint
     notification_channel : PyVal) (extensions : list (string * PyVal)) : Config :=
  {| parameters_client := parameters_client self;
     config_path := config_path self;
     organization_id := organization_id self;
     client_deployment_region := client_deployment_region self;
     notification_type := notification_type;
     notification_endpoint := notification_endpoint;
     config_contents :=
       alias_extensions (config_contents self) (VDict (with_default_extensions extensions));
     config := config;
     deployment_account_region := deployment_account_region;
     notification_channel := notification_channel;
     protected := protected;
     target_regions := target_regions;
     cross_account_access_role := cross_account_access_role;
     extensions := VDict (with_default_extensions extensions) |}.

(** [e.get(k)] on a mapping [e]. *)
Definition entry_field (e : list (string * PyVal)) (k : string) : PyVal :=
  match dict_get e k with
  | Some v => v
  | None => VNone
  end.

(* ================================================================== *)
(** ** Construction *)
(* ================================================================== *)

(** The object [parse_fields] hands to [_validate], from what the
    document holds. *)
Definition parsed_of (self : Config) (tr dar car : PyVal)
    (c e ex : list (string * PyVal)) : Config :=
  parsed self tr dar car (VDict c)
    (match dict_get c "protected" with
     | Some v => v
     | None => VList []
     end)
    (VStr (if eq_str (entry_field e "type") "slack" then "lambda" else "email"))
    (entry_field e "target")
    (if eq_str (entry_field e "type") "slack" then entry_field e "target" else VNone)
    ex.

(** The document was read without an exception, and these are the values
    that were read. *)
Record reads (d T tr dar car : PyVal) (c e : list (string * PyVal))
    (rest : list PyVal) (ex : list (string * PyVal)) : Prop := {
  reads_targets : doc_targets d = inr T;
  reads_target_regions : parse_target_regions T = inr tr;
  reads_deployment_account : doc_deployment_account d = inr dar;
  reads_cross_account_access : doc_cross_account_access d = inr car;
  reads_config : doc_config d = inr (VDict c);
  reads_notification :
    dict_get c "main-notification-endpoint" = Some (VList (VDict e :: rest));
  reads_extensions : doc_extensions d = inr (VDict ex)
}.

(** Sample documents. *)

Definition sample_store : ParameterStore := {| region := VStr "us-east-1" |}.

Definition sample_regions : PyVal :=
  VDict [("deployment-account", VStr "eu-central-1");
         ("targets", VList [VStr "eu-west-1"; VStr "eu-central-1"])].

Definition sample_roles : PyVal :=
  VDict [("cross-account-access", VStr "adf-cross-account-role")].

Definition sample_endpoints : PyVal :=
  VList [VDict [("type", VStr "email"); ("target", VStr "a@b.com")]].

Definition sample_config : PyVal :=
  VDict [("main-notification-endpoint", sample_endpoints);
         ("moves", VList [VDict [("name", VStr "to-root"); ("action", VStr "safe")]]);
         ("protected", VList []);
         ("scp", VDict [("keep-default-scp", VStr "enabled")])].

Definition sample_document : PyVal :=
  VDict [("roles", sample_roles); ("regions", sample_regions);
         ("config", sample_config)].

(** [sample_document] with other [regions], [config] or [extensions]. *)
Definition document_with (regions config : PyVal) (more : list (string * PyVal)) : PyVal :=
  VDict ([("roles", sample_roles); ("regions", regions); ("config", config)] ++ more)%list.

Definition config_with (more : list (string * PyVal)) : PyVal :=
  VDict ([("main-notification-endpoint", sample_endpoints);
          ("moves", VList [VDict [("name", VStr "to-root"); ("action", VStr "safe")]])]
           ++ more)%list.


(* ================================================================== *)
(** ** The parameter store behind the clients *)
(* ================================================================== *)

(** Structural equality of values, to tell the regions of two clients
    apart. *)
Fixpoint PyVal_eqb (a b : PyVal) {struct a} : bool :=
  match a, b with
  | VNone, VNone => true
  | VBool x, VBool y => Bool.eqb x y
  | VInt x, VInt y => Z.eqb x y
  | VStr x, VStr y => String.eqb x y
  | VList l, VList m =>
      (fix all2 (l m : list PyVal) {struct l} : bool :=
         match l, m with
         | [], [] => true
         | x :: l', y :: m' => PyVal_eqb x y && all2 l' m'
         | _, _ => false
         end) l m
  | VDict l, VDict m =>
      (fix all2 (l m : list (string * PyVal)) {struct l} : bool :=
         match l, m with
         | [], [] => true
         | (k, x) :: l', (k', y) :: m' =>
             String.eqb k k' && PyVal_eqb x y && all2 l' m'
         | _, _ => false
         end) l m
  | _, _ => false
  end.

(** Modelled from the spec: the store [put_parameter] writes to, one
    namespace of keys per region, where a write to a key replaces the
    value the key had (overwrite, no read-modify-write). *)
Definition Store : Type := PyVal -> string -> option PyVal.

Definition empty_store : Store := fun _ _ => None.

Definition written_by (call : PutCall) (r : PyVal) (k : string) : bool :=
  PyVal_eqb r (region (put_client call)) && String.eqb k (put_key call).

Definition store_put (s : Store) (call : PutCall) : Store :=
  fun r k => if written_by call r k then Some (put_value call) else s r k.

Definition store_run (calls : list PutCall) (s : Store) : Store :=
  fold_left store_put calls s.

(** The object after a call of [store_config]: an exception leaves the
    attributes as they were, since the only assignment is in
    [_store_cross_region_config], which comes last. *)
Definition self_after (ADF_VERSION : string) (py_repr : PyVal -> string)
    (object_repr : ParameterStore -> string) (self : Config) : Config :=
  match IO.result (store_config ADF_VERSION py_repr object_repr self) with
  | inr self' => self'
  | inl _ => self
  end.

(** The keys of the attributes of an extension. *)
Definition attribute_keys (extension : string * PyVal) : list string :=
  match snd extension with
  | VDict attributes =>
      map (fun kv => "/adf/extensions/" ++ fst extension ++ "/" ++ fst kv) attributes
  | _ => []
  end.

Definition is_mapping (v : PyVal) : Prop := exists kvs, v = VDict kvs.

(* ================================================================== *)
(** ** Statements about [keep-default-scp] *)
(* ================================================================== *)

(** [config.scp.keep-default-scp] is present with a value that is neither
    of the two accepted words. *)
Definition keep_default_scp_present_and_refused (d : PyVal) : Prop :=
  exists c s v,
    doc_config d = inr (VDict c) /\
    dict_get c "scp" = Some (VDict s) /\
    dict_get s "keep-default-scp" = Some v /\
    eq_str v "enabled" || eq_str v "disabled" = false.

(** [config.scp] is a non-empty mapping whose [keep-default-scp] is
    missing or is neither of the two accepted words. *)
Definition scp_refused (d : PyVal) : Prop :=
  exists c s,
    doc_config d = inr (VDict c) /\
    dict_get c "scp" = Some (VDict s) /\
    s <> [] /\
    keep_default_scp_accepted s = false.

(* ================================================================== *)
(** ** What a successful validation leaves *)
(* ================================================================== *)

(** The two normalisations of [_validate], when no check raises. *)
Definition validated (self : Config) : Config :=
  normalize_target_regions
    (match deployment_account_region self with
     | VList [x] => set_deployment_account_region self x
     | _ => self
     end).

(* ================================================================== *)
(** ** Sample documents and objects *)
(* ================================================================== *)

(** [sample_document] without [config], without
    [config.main-notification-endpoint], without [regions.targets], and
    with [regions.targets] null. *)
Definition document_without_config : PyVal :=
  VDict [("roles", sample_roles); ("regions", sample_regions)].

Definition document_without_endpoint : PyVal :=
  document_with sample_regions (VDict [("moves", VList [])]) [].

Definition document_without_targets : PyVal :=
  document_with (VDict [("deployment-account", VStr "eu-central-1")]) sample_config [].

Definition document_null_targets : PyVal :=
  document_with (VDict [("deployment-account", VStr "eu-central-1"); ("targets", VNone)])
    sample_config [].

(** Documents for the deployment-account region and the target regions. *)
Definition document_two_deployment_regions : PyVal :=
  document_with
    (VDict [("deployment-account", VList [VStr "us-east-1"; VStr "us-west-2"]);
            ("targets", VList [VStr "eu-west-1"])])
    sample_config [].

Definition document_one_deployment_region : PyVal :=
  document_with
    (VDict [("deployment-account", VList [VStr "us-east-1"]);
            ("targets", VList [VStr "eu-west-1"])])
    sample_config [].

Definition document_targets (targets : PyVal) : PyVal :=
  document_with
    (VDict [("deployment-account", VStr "eu-central-1"); ("targets", targets)])
    sample_config [].

(** Documents for the scp setting. *)
Definition document_scp (scp : PyVal) : PyVal :=
  document_with sample_regions (config_with [("scp", scp)]) [].

Definition document_without_scp : PyVal :=
  document_with sample_regions (config_with []) [].

(** An object as [parse_fields] leaves it for a scalar [regions.targets]. *)
Definition object_scalar_targets : Config :=
  parsed_of (set_config_contents (init_attributes sample_store "./adfconfig.yml" "o-123")
               (document_targets (VStr "eu-west-1")))
    (VStr "eu-west-1") (VStr "eu-central-1") (VStr "adf-cross-account-role")
    [("main-notification-endpoint", sample_endpoints); ("moves", VList [])]
    [("type", VStr "email"); ("target", VStr "a@b.com")] [].

(** Documents for the notification endpoint and the extensions. *)
Definition document_endpoints (endpoints : PyVal) : PyVal :=
  document_with sample_regions
    (VDict [("main-notification-endpoint", endpoints); ("moves", VList [])]) [].

Definition document_extensions (extensions : PyVal) : PyVal :=
  document_with sample_regions sample_config [("extensions", extensions)].

(** The calls the second loop of [_store_config] makes for one extension
    whose attributes are a mapping: one per attribute, in order. *)
Definition extension_calls (py_repr : PyVal -> string) (client : ParameterStore)
    (extension : string * PyVal) : list PutCall :=
  match snd extension with
  | VDict attributes =>
      map (fun kv =>
             {| put_client := client;
                put_key := "/adf/extensions/" ++ fst extension ++ "/" ++ fst kv;
                put_value := VStr (py_str py_repr (entry_field attributes (fst kv))) |})
        attributes
  | _ => []
  end.

(** The calls the first loop of [_store_config] makes. *)
Definition attribute_calls (py_repr : PyVal -> string) (self : Config) : list PutCall :=
  map (fun kv =>
         {| put_client := parameters_client self;
            put_key := fst kv;
            put_value := VStr (py_str py_repr (snd kv)) |})
    [("organization_id", organization_id self);
     ("config", config self);
     ("deployment_account_region", deployment_account_region self);
     ("notification_channel", notification_channel self);
     ("protected", protected self);
     ("target_regions", target_regions self);
     ("cross_account_access_role", cross_account_access_role self)].

(** An object with extensions, as construction leaves it. *)
Definition object_with_extensions : Config :=
  validated
    (parsed_of
       (set_config_contents (init_attributes sample_store "./adfconfig.yml" "o-123")
          (document_extensions
             (VDict [("terraform", VDict [("enabled", VBool true);
                                          ("version", VStr "1.5")])])))
       (VList [VStr "eu-west-1"; VStr "eu-central-1"])
       (VStr "eu-central-1") (VStr "adf-cross-account-role")
       [("main-notification-endpoint", sample_endpoints); ("moves", VList [])]
       [("type", VStr "email"); ("target", VStr "a@b.com")]
       [("terraform", VDict [("enabled", VBool true); ("version", VStr "1.5")])]).

(* ================================================================== *)
(** ** Further documents and statements *)
(* ================================================================== *)

(** [roles.cross-account-access] can be looked up, whatever it holds. *)
Definition role_readable (d : PyVal) : bool :=
  match doc_cross_account_access d with
  | inr _ => true
  | inl _ => false
  end.

(** The three messages of [_validate]. *)
Definition validation_messages : list string :=
  [missing_properties_msg; scp_msg; single_region_msg].

Definition document_deployment_account (deployment_account : PyVal) : PyVal :=
  document_with
    (VDict [("deployment-account", deployment_account);
            ("targets", VList [VStr "eu-west-1"])])
    sample_config [].

Definition document_roles_config (roles config : PyVal) : PyVal :=
  VDict [("roles", roles); ("regions", sample_regions); ("config", config)].

(** The exceptions a failed lookup or subscript raises. *)
Definition lookup_error (e : PyErr) : bool :=
  match e with
  | AttributeError | TypeError | IndexError | KeyError => true
  | InvalidConfigError _ | ValueError => false
  end.

(** Values a [for] loop cannot iterate over. *)
Definition not_iterable (v : PyVal) : bool :=
  match v with
  | VNone | VBool _ | VInt _ => true
  | VStr _ | VList _ | VDict _ => false
  end.

(** An object whose second extension has no attributes at all
    ([terraform:] with nothing under it). *)
Definition object_null_attributes : Config :=
  set_extensions object_with_extensions
    (VDict [("cdk", VDict [("enabled", VBool true)]); ("terraform", VNone)]).

(** The two calls of the cross-region pass. *)
Definition cross_region_calls (ADF_VERSION : string) (self : Config) : list PutCall :=
  [{| put_client := {| region := deployment_account_region self |};
      put_key := "adf_version";
      put_value := VStr ADF_VERSION |};
   {| put_client := {| region := deployment_account_region self |};
      put_key := "cross_account_access_role";
      put_value := cross_account_access_role self |}].

(** The string has a ["/"] in it. *)
Fixpoint has_slash (s : string) : bool :=
  match s with
  | EmptyString => false
  | String c s' => Ascii.eqb c "/" || has_slash s'
  end.

(** What [config_path or "./adfconfig.yml"] is. *)
Definition resolved_config_path (config_path : option string) : string :=
  match config_path with
  | Some (String c s) => String c s
  | _ => "./adfconfig.yml"
  end.

(* ################################################################## *)
(** * Properties *)
(* ################################################################## *)

(* ================================================================== *)
(** ** Parsing *)
(* ================================================================== *)

Ltac bind_inv H :=
  match type of H with
  | Exc.bind ?m _ = inr _ =>
      let E := fresh "E" in
      destruct m eqn:E; [discriminate H | cbn [Exc.bind] in H]
  end.

Lemma parse_fields_inv self st :
  parse_fields self = inr st ->
  exists T tr dar car c prot nt ne nc ex,
    doc_targets (config_contents self) = inr T /\
    parse_target_regions T = inr tr /\
    doc_deployment_account (config_contents self) = inr dar /\
    doc_cross_account_access (config_contents self) = inr car /\
    doc_config (config_contents self) = inr c /\
    py_get_default c "protected" (VList []) = inr prot /\
    parse_notification c = inr (nt, ne, nc) /\
    doc_extensions (config_contents self) = inr (VDict ex) /\
    st = parsed self tr dar car c prot nt ne nc ex.
Proof.
  unfold parse_fields. intros H.
  bind_inv H. bind_inv H. bind_inv H. bind_inv H. bind_inv H. bind_inv H.
  bind_inv H. destruct p5 as [[nt ne] nc]. bind_inv H.
  unfold _configure_default_extensions_behavior in H. cbn in H.
  destruct p5 as [ | | | | | ex]; try discriminate H.
  cbn in H. injection H as <-.
  exists p, p1, p0, p2, p3, p4, nt, ne, nc, ex.
  repeat split; assumption || reflexivity.
Qed.

Lemma parse_fields_intro self T tr dar car c prot nt ne nc ex :
  doc_targets (config_contents self) = inr T ->
  parse_target_regions T = inr tr ->
  doc_deployment_account (config_contents self) = inr dar ->
  doc_cross_account_access (config_contents self) = inr car ->
  doc_config (config_contents self) = inr c ->
  py_get_default c "protected" (VList []) = inr prot ->
  parse_notification c = inr (nt, ne, nc) ->
  doc_extensions (config_contents self) = inr (VDict ex) ->
  parse_fields self = inr (parsed self tr dar car c prot nt ne nc ex).
Proof.
  intros H1 H2 H3 H4 H5 H6 H7 H8. unfold parse_fields.
  rewrite H1, H3. cbn [Exc.bind]. rewrite H2. cbn [Exc.bind].
  rewrite H4, H5. cbn [Exc.bind]. rewrite H6. cbn [Exc.bind].
  rewrite H7. cbn [Exc.bind]. rewrite H8. reflexivity.
Qed.

Lemma parse_target_regions_not_none T tr :
  parse_target_regions T = inr tr -> is_none tr = false.
Proof.
  unfold parse_target_regions.
  destruct T as [ | | | s | l | ]; try discriminate.
  - destruct s; [discriminate | intros [= <-]; reflexivity].
  - destruct l as [ | x l]; [discriminate | ].
    cbn. destruct (is_none x); intros [= <-]; reflexivity.
Qed.

Lemma parse_notification_intro c e rest :
  dict_get c "main-notification-endpoint" = Some (VList (VDict e :: rest)) ->
  parse_notification (VDict c) =
    inr (VStr (if eq_str (entry_field e "type") "slack" then "lambda" else "email"),
         entry_field e "target",
         if eq_str (entry_field e "type") "slack" then entry_field e "target" else VNone).
Proof.
  intros H. unfold parse_notification, py_get, py_get_default, entry_field.
  rewrite H. cbn.
  destruct (eq_str _ "slack"); reflexivity.
Qed.

Lemma parse_notification_inv cfg r :
  parse_notification cfg = inr r ->
  exists c e rest,
    cfg = VDict c /\
    dict_get c "main-notification-endpoint" = Some (VList (VDict e :: rest)).
Proof.
  unfold parse_notification, py_get, py_get_default.
  destruct cfg as [ | | | | | c]; try discriminate.
  cbn. destruct (dict_get c "main-notification-endpoint") as [v | ] eqn:E; [ | discriminate].
  destruct v as [ | | | s | l | ]; try discriminate.
  - destruct s; discriminate.
  - destruct l as [ | x rest]; [discriminate | ].
    destruct x as [ | | | | | e]; try discriminate.
    intros _. exists c, e, rest. split; [reflexivity | exact E].
Qed.

(* ================================================================== *)
(** ** Validation *)
(* ================================================================== *)

Lemma check_required_spec self c :
  config self = VDict c ->
  check_required self =
    if is_none (cross_account_access_role self)
       || is_none (deployment_account_region self)
       || is_none (organization_id self)
       || is_none (target_regions self)
       || is_none (entry_field c "moves")
       || is_none (entry_field c "main-notification-endpoint")
    then inl (InvalidConfigError missing_properties_msg)
    else inr tt.
Proof.
  intros H. unfold check_required, py_get, py_get_default, entry_field.
  rewrite H. cbn.
  repeat match goal with
         | |- context [is_none ?v] =>
             lazymatch v with
             | VNone => fail
             | _ => destruct (is_none v) eqn:?; cbn
             end
         end; reflexivity.
Qed.

Lemma check_scp_spec self c :
  config self = VDict c ->
  check_scp self =
    match dict_get c "scp" with
    | None => inr tt
    | Some (VDict (kv :: s)) =>
        if keep_default_scp_accepted (kv :: s)
        then inr tt
        else inl (InvalidConfigError scp_msg)
    | Some v => if py_truthy v then inl AttributeError else inr tt
    end.
Proof.
  intros H. unfold check_scp, py_get, py_get_default, keep_default_scp_accepted.
  rewrite H. cbn [Exc.bind Exc.ret].
  destruct (dict_get c "scp") as [v | ]; [ | reflexivity].
  destruct v as [ | b | z | s | l | s]; try reflexivity.
  destruct s as [ | kv s]; [reflexivity | ].
  change (py_truthy (VDict (kv :: s))) with true.
  set (s' := kv :: s). clearbody s'. cbn [Exc.bind Exc.ret].
  destruct (dict_get s' "keep-default-scp") as [k | ];
    [destruct (eq_str k "enabled" || eq_str k "disabled") | ]; reflexivity.
Qed.

(** When the two checks pass, [_validate] is the two normalisations. *)
Lemma validate_checked self :
  check_required self = inr tt ->
  check_scp self = inr tt ->
  _validate self =
    Exc.bind (check_deployment_account_region self)
      (fun self' => inr (normalize_target_regions self')).
Proof.
  intros H1 H2. unfold _validate. rewrite H1. cbn [Exc.bind]. rewrite H2. reflexivity.
Qed.

(* ================================================================== *)
(** ** Construction *)
(* ================================================================== *)

Lemma parse_fields_reads self T tr dar car c e rest ex :
  reads (config_contents self) T tr dar car c e rest ex ->
  parse_fields self = inr (parsed_of self tr dar car c e ex).
Proof.
  intros [H1 H2 H3 H4 H5 H6 H7]. unfold parsed_of.
  apply parse_fields_intro with (T := T); try assumption.
  - reflexivity.
  - apply parse_notification_intro with (rest := rest). exact H6.
Qed.

Lemma construct_reads ps path org d T tr dar car c e rest ex :
  reads d T tr dar car c e rest ex ->
  construct ps path org d =
    _validate (parsed_of (set_config_contents (init_attributes ps path org) d)
                 tr dar car c e ex).
Proof.
  intros H. unfold construct, _load_config_file, _parse_config.
  rewrite (parse_fields_reads _ T tr dar car c e rest ex) by exact H.
  reflexivity.
Qed.

Lemma construct_inv ps path org d cfg :
  construct ps path org d = inr cfg ->
  exists T tr dar car c e rest ex,
    reads d T tr dar car c e rest ex /\
    _validate (parsed_of (set_config_contents (init_attributes ps path org) d)
                 tr dar car c e ex) = inr cfg.
Proof.
  intros H. pose proof H as H0.
  unfold construct, _load_config_file, _parse_config in H.
  bind_inv H.
  apply parse_fields_inv in E.
  destruct E as (T & tr & dar & car & cv & prot & nt & ne & nc & ex
                 & H1 & H2 & H3 & H4 & H5 & H6 & H7 & H8 & _).
  cbn [config_contents set_config_contents] in *.
  destruct (parse_notification_inv _ _ H7) as (c' & e & rest & -> & Hn).
  exists T, tr, dar, car, c', e, rest, ex.
  assert (R : reads d T tr dar car c' e rest ex) by (constructor; assumption).
  split; [exact R | ].
  rewrite <- (construct_reads ps path org d _ _ _ _ _ _ _ _ R). exact H0.
Qed.

(** What the well-formedness tests say about the lookups. *)

Lemma targets_ok_inv d :
  targets_ok d = true ->
  exists T tr dar,
    doc_targets d = inr T /\ parse_target_regions T = inr tr /\
    doc_deployment_account d = inr dar.
Proof.
  unfold targets_ok, doc_targets, doc_deployment_account, doc_regions,
    py_get, py_get_default.
  destruct d as [ | | | | | top]; try discriminate.
  cbn [Exc.bind Exc.ret].
  destruct (match dict_get top "regions" with Some v => v | None => VDict [] end)
    as [ | | | | | r]; try discriminate.
  cbn [Exc.bind Exc.ret].
  destruct (match dict_get r "targets" with Some v => v | None => VList [] end)
    as [ | | | s | l | ]; try discriminate.
  - destruct s as [ | ch s]; [discriminate | ]. intros _.
    eexists _, _, _. repeat split.
  - destruct l as [ | x l]; [discriminate | ]. intros _.
    eexists _, _, _. repeat split.
Qed.

Lemma notification_ok_inv d :
  notification_ok d = true ->
  exists c e rest,
    doc_config d = inr (VDict c) /\
    dict_get c "main-notification-endpoint" = Some (VList (VDict e :: rest)).
Proof.
  unfold notification_ok.
  destruct (doc_config d) as [ | [ | | | | | c]]; try discriminate.
  destruct (dict_get c "main-notification-endpoint")
    as [[ | | | | [ | [ | | | | | e] rest] | ] | ] eqn:E; try discriminate.
  intros _. exists c, e, rest. split; [reflexivity | exact E].
Qed.

Lemma extensions_ok_inv d :
  extensions_ok d = true -> exists ex, doc_extensions d = inr (VDict ex).
Proof.
  unfold extensions_ok.
  destruct (doc_extensions d) as [ | [ | | | | | ex]]; try discriminate.
  intros _. exists ex. reflexivity.
Qed.

(** The four parts that let [parse_fields] run to its end. *)
Lemma reads_intro d car :
  targets_ok d = true ->
  doc_cross_account_access d = inr car ->
  notification_ok d = true ->
  extensions_ok d = true ->
  exists T tr dar c e rest ex, reads d T tr dar car c e rest ex.
Proof.
  intros Ht Hr Hn He.
  destruct (targets_ok_inv d Ht) as (T & tr & dar & H1 & H2 & H3).
  destruct (notification_ok_inv d Hn) as (c & e & rest & H5 & H6).
  destruct (extensions_ok_inv d He) as (ex & H7).
  exists T, tr, dar, c, e, rest, ex. constructor; assumption.
Qed.

Lemma reads_targets_ok d T tr dar car c e rest ex :
  reads d T tr dar car c e rest ex -> targets_ok d = true.
Proof.
  intros [H1 H2 _ _ _ _ _]. unfold targets_ok. rewrite H1.
  unfold parse_target_regions in H2.
  destruct T as [ | | | [ | ch s] | [ | x l] | ]; try discriminate H2; reflexivity.
Qed.

Lemma check_required_parsed self d T tr dar car c e rest ex :
  reads d T tr dar car c e rest ex ->
  check_required (parsed_of self tr dar car c e ex) =
    if is_none car || is_none dar || is_none (organization_id self)
       || is_none (entry_field c "moves")
    then inl (InvalidConfigError missing_properties_msg)
    else inr tt.
Proof.
  intros R. rewrite (check_required_spec _ c) by reflexivity.
  cbn [parsed_of parsed cross_account_access_role deployment_account_region
         organization_id target_regions].
  rewrite (parse_target_regions_not_none _ _ (reads_target_regions _ _ _ _ _ _ _ _ _ R)).
  unfold entry_field at 2.
  rewrite (reads_notification _ _ _ _ _ _ _ _ _ R).
  cbn [is_none]. rewrite !orb_false_r. reflexivity.
Qed.

(** Construction of a readable document with nothing required missing is
    the scp check followed by the two normalisations. *)
Lemma construct_required_present ps path org d T tr dar car c e rest ex :
  reads d T tr dar car c e rest ex ->
  is_none car = false ->
  is_none dar = false ->
  is_none (entry_field c "moves") = false ->
  let st := parsed_of (set_config_contents (init_attributes ps path org) d)
              tr dar car c e ex in
  construct ps path org d =
    Exc.bind (check_scp st)
      (fun _ => Exc.bind (check_deployment_account_region st)
                  (fun st' => inr (normalize_target_regions st'))).
Proof.
  intros R Hc Hd Hm st.
  rewrite (construct_reads ps path org d T tr dar car c e rest ex R).
  fold st. unfold _validate.
  unfold st at 1. rewrite (check_required_parsed _ d T tr dar car c e rest ex R).
  rewrite Hc, Hd, Hm. reflexivity.
Qed.

Lemma role_ok_inv d :
  role_ok d = true ->
  exists car, doc_cross_account_access d = inr car /\ is_none car = false.
Proof.
  unfold role_ok. destruct (doc_cross_account_access d) as [ | car]; [discriminate | ].
  intros H. exists car. split; [reflexivity | ].
  destruct (is_none car); [discriminate | reflexivity].
Qed.

Lemma moves_ok_inv d c :
  moves_ok d = true -> doc_config d = inr (VDict c) ->
  is_none (entry_field c "moves") = false.
Proof.
  unfold moves_ok, entry_field. intros H E. rewrite E in H.
  destruct (dict_get c "moves") as [v | ]; [ | discriminate].
  destruct (is_none v); [discriminate | reflexivity].
Qed.

Lemma deployment_account_ok_inv d dar :
  deployment_account_ok d = true -> doc_deployment_account d = inr dar ->
  is_none dar = false /\
  forall self, deployment_account_region self = dar ->
    check_deployment_account_region self =
      inr (match dar with
           | VList [x] => set_deployment_account_region self x
           | _ => self
           end).
Proof.
  unfold deployment_account_ok. intros H E. rewrite E in H.
  unfold check_deployment_account_region.
  destruct dar as [ | | | | [ | x [ | y l]] | ]; try discriminate H;
    (split; [reflexivity | intros self ->; reflexivity]).
Qed.

Lemma scp_ok_inv d c :
  scp_ok d = true -> doc_config d = inr (VDict c) ->
  forall self, config self = VDict c -> check_scp self = inr tt.
Proof.
  unfold scp_ok. intros H E self Hc. rewrite E in H.
  rewrite (check_scp_spec self c Hc).
  destruct (dict_get c "scp") as [[ | | | | | [ | kv s]] | ]; try reflexivity;
    try (rewrite H; reflexivity);
    try (apply negb_true_iff in H; rewrite H; reflexivity).
Qed.

Example sample_document_valid : valid_document sample_document = true.
Proof. reflexivity. Qed.

Example sample_document_constructed :
  exists cfg,
    construct sample_store "./adfconfig.yml" "o-123" sample_document = inr cfg /\
    target_regions cfg = VList [VStr "eu-west-1"; VStr "eu-central-1"] /\
    deployment_account_region cfg = VStr "eu-central-1" /\
    notification_type cfg = VStr "email" /\
    notification_channel cfg = VNone /\
    extensions cfg = VDict [("terraform", VDict [("enabled", VBool false)])].
Proof. eexists. repeat split. Qed.


(** Fields of a validated object. *)

Lemma validated_target_regions self :
  target_regions (validated self) =
    if is_list (target_regions self)
    then target_regions self
    else VList [target_regions self].
Proof.
  unfold validated, normalize_target_regions.
  destruct (deployment_account_region self) as [ | | | | [ | x [ | y l]] | ];
    cbn [target_regions set_deployment_account_region];
    destruct (is_list (target_regions self)); reflexivity.
Qed.

Lemma validated_deployment_account_region self :
  deployment_account_region (validated self) =
    match deployment_account_region self with
    | VList [x] => x
    | v => v
    end.
Proof.
  unfold validated, normalize_target_regions.
  destruct (deployment_account_region self) as [ | | | | [ | x [ | y l]] | ] eqn:E;
    cbn [target_regions set_deployment_account_region];
    destruct (is_list (target_regions self));
    cbn [deployment_account_region set_target_regions set_deployment_account_region];
    try rewrite E; reflexivity.
Qed.

Lemma validated_others self :
  notification_type (validated self) = notification_type self /\
  notification_endpoint (validated self) = notification_endpoint self /\
  notification_channel (validated self) = notification_channel self /\
  extensions (validated self) = extensions self /\
  config (validated self) = config self /\
  cross_account_access_role (validated self) = cross_account_access_role self.
Proof.
  unfold validated, normalize_target_regions.
  destruct (deployment_account_region self) as [ | | | | [ | x [ | y l]] | ];
    cbn [target_regions set_deployment_account_region];
    destruct (is_list (target_regions self)); repeat split; reflexivity.
Qed.

(** A well-formed document is constructed, into the validated form of
    what was read. *)
Lemma construct_valid ps path org d :
  valid_document d = true ->
  exists T tr dar car c e rest ex,
    reads d T tr dar car c e rest ex /\
    construct ps path org d =
      inr (validated (parsed_of (set_config_contents (init_attributes ps path org) d)
                        tr dar car c e ex)).
Proof.
  unfold valid_document. intros H.
  repeat (apply andb_true_iff in H; destruct H as [H ?]).
  destruct (role_ok_inv d) as (car & Hcar & Hcn); [assumption | ].
  destruct (reads_intro d car) as (T & tr & dar & c & e & rest & ex & R);
    try assumption.
  exists T, tr, dar, car, c, e, rest, ex. split; [exact R | ].
  destruct (deployment_account_ok_inv d dar) as [Hdn Hd];
    [assumption | exact (reads_deployment_account _ _ _ _ _ _ _ _ _ R) | ].
  rewrite (construct_required_present ps path org d T tr dar car c e rest ex R Hcn Hdn)
    by (apply (moves_ok_inv d); [assumption | exact (reads_config _ _ _ _ _ _ _ _ _ R)]).
  cbv zeta.
  rewrite (scp_ok_inv d c) by
    (assumption || exact (reads_config _ _ _ _ _ _ _ _ _ R) || reflexivity).
  cbn [Exc.bind]. rewrite Hd by reflexivity. reflexivity.
Qed.

Lemma construct_valid_inv ps path org d cfg :
  construct ps path org d = inr cfg -> valid_document d = true.
Proof.
  intros H.
  destruct (construct_inv _ _ _ _ _ H) as (T & tr & dar & car & c & e & rest & ex & R & V).
  pose proof R as [R1 R2 R3 R4 R5 R6 R7].
  unfold _validate in V.
  bind_inv V. bind_inv V. bind_inv V. clear V.
  rewrite (check_required_parsed _ d T tr dar car c e rest ex R) in E.
  destruct (is_none car || is_none dar
            || is_none (organization_id (set_config_contents (init_attributes ps path org) d))
            || is_none (entry_field c "moves")) eqn:Hor; [discriminate E | ].
  apply orb_false_elim in Hor. destruct Hor as [Hor Hm].
  apply orb_false_elim in Hor. destruct Hor as [Hor _].
  apply orb_false_elim in Hor. destruct Hor as [Hc Hd].
  rewrite (check_scp_spec _ c) in E0 by reflexivity.
  unfold check_deployment_account_region in E1.
  cbn [parsed_of parsed deployment_account_region] in E1.
  unfold valid_document.
  rewrite (reads_targets_ok _ _ _ _ _ _ _ _ _ R).
  unfold deployment_account_ok, role_ok, moves_ok, notification_ok, scp_ok, extensions_ok.
  rewrite R3, R4, R5, R6, R7, Hc. cbn [negb andb].
  assert (Hmoves : match dict_get c "moves" with
                   | Some v => negb (is_none v)
                   | None => false
                   end = true).
  { unfold entry_field in Hm. destruct (dict_get c "moves") as [v | ];
      [rewrite Hm; reflexivity | discriminate Hm]. }
  rewrite Hmoves.
  assert (Hdar : match dar with
                 | VNone => false
                 | VList [_] => true
                 | VList _ => false
                 | _ => true
                 end = true).
  { destruct dar as [ | | | | [ | x [ | y l]] | ];
      try reflexivity; discriminate. }
  rewrite Hdar.
  assert (Hscp : match dict_get c "scp" with
                 | None => true
                 | Some (VDict (kv :: s)) => keep_default_scp_accepted (kv :: s)
                 | Some v => negb (py_truthy v)
                 end = true).
  { destruct (dict_get c "scp") as [[ | | | | | [ | kv s]] | ]; try reflexivity;
      try (destruct (keep_default_scp_accepted (kv :: s)); [reflexivity | discriminate E0]);
      match type of E0 with
      | (if ?t then _ else _) = _ => destruct t; [discriminate E0 | reflexivity]
      end. }
  rewrite Hscp. reflexivity.
Qed.

(** The documents [Config] accepts are the well-formed ones. *)
Theorem construct_succeeds_iff ps path org d :
  (exists cfg, construct ps path org d = inr cfg) <-> valid_document d = true.
Proof.
  split.
  - intros [cfg H]. exact (construct_valid_inv _ _ _ _ _ H).
  - intros H. destruct (construct_valid ps path org d H)
      as (T & tr & dar & car & c & e & rest & ex & _ & E).
    eexists. exact E.
Qed.

(** [__init__] is [construct] once the environment has answered. *)
Lemma init_construct env parameter_store config_path org d :
  ORGANIZATION_ID env = Some org ->
  (parameter_store = None -> AWS_REGION env <> None) ->
  exists ps path, __init__ env parameter_store config_path d = construct ps path org d.
Proof.
  intros Ho Hr. unfold __init__. rewrite Ho.
  destruct parameter_store as [ps | ].
  - cbn. eexists _, _. reflexivity.
  - destruct (AWS_REGION env) as [r | ]; [ | exfalso; apply Hr; reflexivity].
    cbn. eexists _, _. reflexivity.
Qed.

(* ================================================================== *)
(** ** Required properties *)
(* ================================================================== *)

(** With a [config] mapping in place, a missing required value is
    reported by the validator, as an [InvalidConfigError]. *)
Lemma validate_missing_required self c :
  config self = VDict c ->
  existsb is_none
    [cross_account_access_role self; deployment_account_region self;
     organization_id self; target_regions self;
     entry_field c "moves"; entry_field c "main-notification-endpoint"] = true ->
  _validate self = inl (InvalidConfigError missing_properties_msg).
Proof.
  intros Hc H. unfold _validate. rewrite (check_required_spec self c Hc).
  cbn [existsb] in H. rewrite orb_false_r in H. rewrite !orb_assoc in H.
  rewrite H. reflexivity.
Qed.

(** The validator itself cannot report a missing [config]: building the
    tuple of line 54 already calls [self.config.get]. *)
Lemma validate_without_config self :
  config self = VNone -> _validate self = inl AttributeError.
Proof. intros H. unfold _validate, check_required, py_get. rewrite H. reflexivity. Qed.

(** A readable document without [roles.cross-account-access],
    [regions.deployment-account] or [config.moves] is refused with
    [InvalidConfigError]. *)
Lemma construct_missing_required ps path org d T tr dar car c e rest ex :
  reads d T tr dar car c e rest ex ->
  is_none car || is_none dar || is_none (entry_field c "moves") = true ->
  construct ps path org d = inl (InvalidConfigError missing_properties_msg).
Proof.
  intros R H.
  rewrite (construct_reads ps path org d T tr dar car c e rest ex R).
  unfold _validate. rewrite (check_required_parsed _ d T tr dar car c e rest ex R).
  cbn [organization_id set_config_contents init_attributes is_none].
  rewrite orb_false_r. rewrite H. reflexivity.
Qed.

(** C1 (as the code has it): a document without [config], without
    [config.main-notification-endpoint] or without [regions.targets] does
    not reach the validator: construction ends in [AttributeError],
    [TypeError] and [IndexError] (or [TypeError] for a null
    [regions.targets]), not in [InvalidConfigError]; and without
    [ORGANIZATION_ID] in the environment [__init__] ends in [KeyError]. *)
Theorem C1_missing_properties_preempted :
  construct sample_store "./adfconfig.yml" "o-123" document_without_config
    = inl AttributeError /\
  construct sample_store "./adfconfig.yml" "o-123" document_without_endpoint
    = inl TypeError /\
  construct sample_store "./adfconfig.yml" "o-123" document_without_targets
    = inl IndexError /\
  construct sample_store "./adfconfig.yml" "o-123" document_null_targets
    = inl TypeError /\
  __init__ {| AWS_REGION := Some "us-east-1"; ORGANIZATION_ID := None |}
    None None sample_document
    = inl KeyError.
Proof. repeat split. Qed.

(* ================================================================== *)
(** ** Target regions: the unguarded index *)
(* ================================================================== *)

Lemma doc_targets_deployment_account d T :
  doc_targets d = inr T -> exists dar, doc_deployment_account d = inr dar.
Proof.
  unfold doc_targets, doc_deployment_account, py_get.
  destruct (doc_regions d) as [ | r]; [discriminate | ].
  cbn [Exc.bind]. destruct r; try discriminate.
  intros _. eexists. reflexivity.
Qed.

(** C10: when the lookup of [regions.targets] yields the empty list
    (the key or the whole [regions] mapping is absent, or the list is
    empty), construction raises [IndexError] at [regions[0]], and so never
    an [InvalidConfigError]. *)
Theorem C10_empty_targets_index_error ps path org :
  (forall d,
     doc_targets d = inr (VList []) ->
     construct ps path org d = inl IndexError /\
     forall msg, construct ps path org d <> inl (InvalidConfigError msg)) /\
  (forall top,
     dict_get top "regions" = None ->
     doc_targets (VDict top) = inr (VList [])) /\
  (forall top r,
     dict_get top "regions" = Some (VDict r) ->
     dict_get r "targets" = None \/ dict_get r "targets" = Some (VList []) ->
     doc_targets (VDict top) = inr (VList [])).
Proof.
  split; [ | split].
  - intros d H.
    assert (E : construct ps path org d = inl IndexError).
    { unfold construct, _load_config_file, _parse_config, parse_fields.
      cbn [config_contents set_config_contents].
      rewrite H. destruct (doc_targets_deployment_account d _ H) as [dar ->].
      reflexivity. }
    split; [exact E | ]. intros msg. rewrite E. discriminate.
  - intros top H. unfold doc_targets, doc_regions, py_get_default. rewrite H. reflexivity.
  - intros top r H [Ht | Ht]; unfold doc_targets, doc_regions, py_get_default;
      rewrite H; cbn; rewrite Ht; reflexivity.
Qed.

Lemma C10_empty_targets_index_error_witness :
  construct sample_store "./adfconfig.yml" "o-123" document_without_targets
    = inl IndexError.
Proof.
  apply (proj1 (C10_empty_targets_index_error sample_store "./adfconfig.yml" "o-123")).
  apply (proj2 (proj2 (C10_empty_targets_index_error sample_store "./adfconfig.yml" "o-123"))
           _ [("deployment-account", VStr "eu-central-1")]).
  - reflexivity.
  - left. reflexivity.
Defined.

(* ================================================================== *)
(** ** The deployment account region *)
(* ================================================================== *)

Lemma reads_deployment_account_eq d T tr dar car c e rest ex v :
  reads d T tr dar car c e rest ex -> doc_deployment_account d = inr v -> dar = v.
Proof. intros R H. rewrite (reads_deployment_account _ _ _ _ _ _ _ _ _ R) in H. congruence. Qed.

Lemma reads_targets_eq d T tr dar car c e rest ex v :
  reads d T tr dar car c e rest ex -> doc_targets d = inr v -> T = v.
Proof. intros R H. rewrite (reads_targets _ _ _ _ _ _ _ _ _ R) in H. congruence. Qed.

Lemma reads_config_eq d T tr dar car c e rest ex v :
  reads d T tr dar car c e rest ex -> doc_config d = inr (VDict v) -> c = v.
Proof. intros R H. rewrite (reads_config _ _ _ _ _ _ _ _ _ R) in H. congruence. Qed.

(** C3: in a document that is well formed apart from
    [regions.deployment-account]: a list of more than one element makes
    construction fail with [InvalidConfigError]; a list of one element is
    accepted and [deployment_account_region] becomes that element. *)
Theorem C3_single_deployment_account_region ps path org d :
  targets_ok d = true -> role_ok d = true -> moves_ok d = true ->
  notification_ok d = true -> scp_ok d = true -> extensions_ok d = true ->
  (forall l,
     doc_deployment_account d = inr (VList l) -> (1 < length l)%nat ->
     construct ps path org d = inl (InvalidConfigError single_region_msg)) /\
  (forall x,
     doc_deployment_account d = inr (VList [x]) ->
     exists cfg,
       construct ps path org d = inr cfg /\ deployment_account_region cfg = x).
Proof.
  intros Ht Hr Hm Hn Hs He. split.
  - intros l Hd Hlen.
    destruct (role_ok_inv d Hr) as (car & Hcar & Hcn).
    destruct (reads_intro d car Ht Hcar Hn He) as (T & tr & dar & c & e & rest & ex & R).
    pose proof (reads_deployment_account_eq _ _ _ _ _ _ _ _ _ _ R Hd) as ->.
    rewrite (construct_required_present ps path org d T tr (VList l) car c e rest ex R Hcn)
      by (reflexivity ||
          (apply (moves_ok_inv d); [assumption | exact (reads_config _ _ _ _ _ _ _ _ _ R)])).
    cbv zeta.
    rewrite (scp_ok_inv d c) by
      (assumption || exact (reads_config _ _ _ _ _ _ _ _ _ R) || reflexivity).
    cbn [Exc.bind]. unfold check_deployment_account_region.
    cbn [parsed_of parsed deployment_account_region].
    apply Nat.ltb_lt in Hlen. rewrite Hlen. reflexivity.
  - intros x Hd.
    assert (V : valid_document d = true).
    { unfold valid_document. rewrite Ht, Hr, Hm, Hn, Hs, He.
      unfold deployment_account_ok. rewrite Hd. reflexivity. }
    destruct (construct_valid ps path org d V)
      as (T & tr & dar & car & c & e & rest & ex & R & E).
    pose proof (reads_deployment_account_eq _ _ _ _ _ _ _ _ _ _ R Hd) as ->.
    eexists. split; [exact E | ].
    rewrite validated_deployment_account_region. reflexivity.
Qed.

Lemma C3_single_deployment_account_region_witness :
  construct sample_store "./adfconfig.yml" "o-123" document_two_deployment_regions
    = inl (InvalidConfigError single_region_msg) /\
  exists cfg,
    construct sample_store "./adfconfig.yml" "o-123" document_one_deployment_region
      = inr cfg /\
    deployment_account_region cfg = VStr "us-east-1".
Proof.
  split.
  - apply (proj1 (C3_single_deployment_account_region sample_store "./adfconfig.yml"
                    "o-123" document_two_deployment_regions
                    eq_refl eq_refl eq_refl eq_refl eq_refl eq_refl)
             [VStr "us-east-1"; VStr "us-west-2"]).
    + reflexivity.
    + cbn. lia.
  - apply (proj2 (C3_single_deployment_account_region sample_store "./adfconfig.yml"
                    "o-123" document_one_deployment_region
                    eq_refl eq_refl eq_refl eq_refl eq_refl eq_refl)
             (VStr "us-east-1")).
    reflexivity.
Defined.

(* ================================================================== *)
(** ** Target regions: what is kept *)
(* ================================================================== *)

(** C4: in a document that is well formed apart from [regions.targets]:
    a list whose first element is [None] gives the empty list; a list
    whose first element is not [None] is kept as it is, later [None]s
    included; a string is wrapped by the validator into a one-element
    list.  And [_validate], whenever it succeeds on a [target_regions]
    that is not a list, leaves the one-element list of it. *)
Theorem C4_target_regions ps path org :
  (forall d,
     deployment_account_ok d = true -> role_ok d = true -> moves_ok d = true ->
     notification_ok d = true -> scp_ok d = true -> extensions_ok d = true ->
     (forall rest,
        doc_targets d = inr (VList (VNone :: rest)) ->
        exists cfg,
          construct ps path org d = inr cfg /\ target_regions cfg = VList []) /\
     (forall x rest,
        doc_targets d = inr (VList (x :: rest)) -> x <> VNone ->
        exists cfg,
          construct ps path org d = inr cfg /\
          target_regions cfg = VList (x :: rest)) /\
     (forall ch s,
        doc_targets d = inr (VStr (String ch s)) ->
        exists cfg,
          construct ps path org d = inr cfg /\
          target_regions cfg = VList [VStr (String ch s)])) /\
  (forall self self',
     _validate self = inr self' ->
     is_list (target_regions self) = false ->
     target_regions self' = VList [target_regions self]).
Proof.
  split.
  - intros d Hd Hr Hm Hn Hs He.
    assert (V : forall T, doc_targets d = inr T ->
                          match T with
                          | VList (_ :: _) | VStr (String _ _) => True
                          | _ => False
                          end ->
                          exists tr dar car c e ex,
                            parse_target_regions T = inr tr /\
                            construct ps path org d =
                              inr (validated
                                     (parsed_of
                                        (set_config_contents (init_attributes ps path org) d)
                                        tr dar car c e ex))).
    { intros T HT Hshape.
      assert (V : valid_document d = true).
      { unfold valid_document. rewrite Hd, Hr, Hm, Hn, Hs, He.
        unfold targets_ok. rewrite HT.
        destruct T as [ | | | [ | ? ?] | [ | ? ?] | ]; try contradiction; reflexivity. }
      destruct (construct_valid ps path org d V)
        as (T' & tr & dar & car & c & e & rest & ex & R & E).
      pose proof (reads_targets_eq _ _ _ _ _ _ _ _ _ _ R HT) as ->.
      exists tr, dar, car, c, e, ex.
      split; [exact (reads_target_regions _ _ _ _ _ _ _ _ _ R) | exact E]. }
    split; [ | split].
    + intros rest HT.
      destruct (V _ HT I) as (tr & dar & car & c & e & ex & Htr & E).
      eexists. split; [exact E | ].
      rewrite validated_target_regions. cbn in Htr. injection Htr as <-. reflexivity.
    + intros x rest HT Hx.
      destruct (V _ HT I) as (tr & dar & car & c & e & ex & Htr & E).
      eexists. split; [exact E | ].
      rewrite validated_target_regions. cbn in Htr.
      destruct x; try (exfalso; apply Hx; reflexivity);
        cbn in Htr; injection Htr as <-; reflexivity.
    + intros ch s HT.
      destruct (V _ HT I) as (tr & dar & car & c & e & ex & Htr & E).
      eexists. split; [exact E | ].
      rewrite validated_target_regions. cbn in Htr. injection Htr as <-. reflexivity.
  - intros self self' H Hl. unfold _validate in H.
    bind_inv H. bind_inv H. bind_inv H. injection H as <-.
    unfold check_deployment_account_region in E1.
    unfold normalize_target_regions.
    destruct (deployment_account_region self) as [ | | | | [ | x [ | y l]] | ];
      try discriminate E1; injection E1 as <-;
      cbn [target_regions set_deployment_account_region];
      rewrite Hl; reflexivity.
Qed.

Lemma C4_target_regions_witness :
  (exists cfg,
     construct sample_store "./adfconfig.yml" "o-123" (document_targets (VList [VNone]))
       = inr cfg /\
     target_regions cfg = VList []) /\
  (exists cfg,
     construct sample_store "./adfconfig.yml" "o-123"
       (document_targets (VList [VStr "eu-west-1"; VNone; VStr "eu-central-1"]))
       = inr cfg /\
     target_regions cfg = VList [VStr "eu-west-1"; VNone; VStr "eu-central-1"]) /\
  (exists cfg,
     construct sample_store "./adfconfig.yml" "o-123" (document_targets (VStr "eu-west-1"))
       = inr cfg /\
     target_regions cfg = VList [VStr "eu-west-1"]) /\
  target_regions (validated object_scalar_targets) = VList [VStr "eu-west-1"].
Proof.
  pose proof (C4_target_regions sample_store "./adfconfig.yml" "o-123") as [D V].
  split; [ | split; [ | split]].
  - apply (proj1 (D (document_targets (VList [VNone]))
                    eq_refl eq_refl eq_refl eq_refl eq_refl eq_refl) []).
    reflexivity.
  - apply (proj1 (proj2 (D (document_targets
                              (VList [VStr "eu-west-1"; VNone; VStr "eu-central-1"]))
                           eq_refl eq_refl eq_refl eq_refl eq_refl eq_refl))
             (VStr "eu-west-1") [VNone; VStr "eu-central-1"]).
    + reflexivity.
    + discriminate.
  - apply (proj2 (proj2 (D (document_targets (VStr "eu-west-1"))
                           eq_refl eq_refl eq_refl eq_refl eq_refl eq_refl))
             "e"%char "u-west-1").
    reflexivity.
  - apply (V object_scalar_targets (validated object_scalar_targets)); reflexivity.
Defined.

(* ================================================================== *)
(** ** The scp setting *)
(* ================================================================== *)

Lemma dict_get_some_nonempty (s : list (string * PyVal)) k v :
  dict_get s k = Some v -> s <> [].
Proof. destruct s; [discriminate | discriminate]. Qed.

(** In a document that is well formed apart from [config.scp],
    construction is the scp check and then the validated object. *)
Lemma construct_scp ps path org d :
  targets_ok d = true -> deployment_account_ok d = true -> role_ok d = true ->
  moves_ok d = true -> notification_ok d = true -> extensions_ok d = true ->
  exists c st,
    doc_config d = inr (VDict c) /\
    config st = VDict c /\
    construct ps path org d =
      Exc.bind (check_scp st) (fun _ => inr (validated st)).
Proof.
  intros Ht Hd Hr Hm Hn He.
  destruct (role_ok_inv d Hr) as (car & Hcar & Hcn).
  destruct (reads_intro d car Ht Hcar Hn He) as (T & tr & dar & c & e & rest & ex & R).
  destruct (deployment_account_ok_inv d dar Hd (reads_deployment_account _ _ _ _ _ _ _ _ _ R))
    as [Hdn Hcheck].
  exists c, (parsed_of (set_config_contents (init_attributes ps path org) d)
               tr dar car c e ex).
  split; [exact (reads_config _ _ _ _ _ _ _ _ _ R) | ].
  split; [reflexivity | ].
  rewrite (construct_required_present ps path org d T tr dar car c e rest ex R Hcn Hdn)
    by (apply (moves_ok_inv d); [assumption | exact (reads_config _ _ _ _ _ _ _ _ _ R)]).
  cbv zeta. rewrite Hcheck by reflexivity. reflexivity.
Qed.

(** C2 (as stated) does not hold: with a non-empty [scp] mapping that has
    no [keep-default-scp] key, construction fails with the scp
    [InvalidConfigError] although no [keep-default-scp] value is present. *)
Lemma C2_counterexample :
  let d := document_scp (VDict [("other-setting", VStr "enabled")]) in
  ~ (construct sample_store "./adfconfig.yml" "o-123" d
       = inl (InvalidConfigError scp_msg)
     <-> keep_default_scp_present_and_refused d).
Proof.
  intros d [H _].
  assert (E : construct sample_store "./adfconfig.yml" "o-123" d
              = inl (InvalidConfigError scp_msg)) by reflexivity.
  destruct (H E) as (c & s & v & Hc & Hs & Hk & _).
  cbv in Hc. injection Hc as <-.
  cbv in Hs. injection Hs as <-.
  cbv in Hk. discriminate Hk.
Qed.

(** C2 (amended): in a document that is well formed apart from
    [config.scp], construction fails with the scp [InvalidConfigError]
    exactly when [config.scp] is a non-empty mapping whose
    [keep-default-scp] is missing or is neither ["enabled"] nor
    ["disabled"], and succeeds exactly when [scp_ok] holds; so ["maybe"]
    is refused, and ["enabled"], ["disabled"] and an absent [scp] are
    accepted. *)
Theorem C2_keep_default_scp ps path org d :
  targets_ok d = true -> deployment_account_ok d = true -> role_ok d = true ->
  moves_ok d = true -> notification_ok d = true -> extensions_ok d = true ->
  (construct ps path org d = inl (InvalidConfigError scp_msg) <-> scp_refused d) /\
  ((exists cfg, construct ps path org d = inr cfg) <-> scp_ok d = true) /\
  (forall c s,
     doc_config d = inr (VDict c) -> dict_get c "scp" = Some (VDict s) ->
     dict_get s "keep-default-scp" = Some (VStr "maybe") ->
     construct ps path org d = inl (InvalidConfigError scp_msg)) /\
  (forall c s w,
     doc_config d = inr (VDict c) -> dict_get c "scp" = Some (VDict s) ->
     dict_get s "keep-default-scp" = Some (VStr w) ->
     w = "enabled" \/ w = "disabled" ->
     exists cfg, construct ps path org d = inr cfg) /\
  (forall c,
     doc_config d = inr (VDict c) -> dict_get c "scp" = None ->
     exists cfg, construct ps path org d = inr cfg).
Proof.
  intros Ht Hd Hr Hm Hn He.
  destruct (construct_scp ps path org d Ht Hd Hr Hm Hn He) as (c & st & Hc & Hst & E).
  rewrite (check_scp_spec st c Hst) in E.
  assert (Refused : construct ps path org d = inl (InvalidConfigError scp_msg)
                    <-> scp_refused d).
  { split.
    - intros H. rewrite H in E.
      destruct (dict_get c "scp") as [[ | | | | | [ | kv s]] | ] eqn:Es; cbn in E;
        try discriminate E;
        try (match type of E with
             | _ = Exc.bind (if ?t then _ else _) _ => destruct t; discriminate E
             end).
      exists c, (kv :: s). repeat split; try assumption; try discriminate.
      destruct (keep_default_scp_accepted (kv :: s)); [discriminate E | reflexivity].
    - intros (c' & s & Hc' & Hs & Hne & Hk).
      rewrite Hc in Hc'. injection Hc' as <-.
      rewrite Hs in E. destruct s as [ | kv s]; [contradiction | ].
      rewrite Hk in E. exact E. }
  assert (Accepted : (exists cfg, construct ps path org d = inr cfg) <-> scp_ok d = true).
  { rewrite construct_succeeds_iff. unfold valid_document.
    rewrite Ht, Hd, Hr, Hm, Hn, He. cbn [andb]. rewrite andb_true_r. reflexivity. }
  split; [exact Refused | ]. split; [exact Accepted | ].
  split; [ | split].
  - intros c' s Hc' Hs Hk. apply Refused.
    exists c', s. repeat split; try assumption.
    + exact (dict_get_some_nonempty _ _ _ Hk).
    + unfold keep_default_scp_accepted. rewrite Hk. reflexivity.
  - intros c' s w Hc' Hs Hk Hw. apply Accepted.
    unfold scp_ok. rewrite Hc', Hs.
    destruct s as [ | kv s]; [discriminate Hk | ].
    unfold keep_default_scp_accepted. rewrite Hk.
    destruct Hw as [-> | ->]; reflexivity.
  - intros c' Hc' Hs. apply Accepted. unfold scp_ok. rewrite Hc', Hs. reflexivity.
Qed.

Lemma C2_keep_default_scp_witness :
  construct sample_store "./adfconfig.yml" "o-123"
    (document_scp (VDict [("keep-default-scp", VStr "maybe")]))
    = inl (InvalidConfigError scp_msg) /\
  (exists cfg,
     construct sample_store "./adfconfig.yml" "o-123"
       (document_scp (VDict [("keep-default-scp", VStr "disabled")])) = inr cfg) /\
  (exists cfg,
     construct sample_store "./adfconfig.yml" "o-123" document_without_scp = inr cfg).
Proof.
  split; [ | split].
  - eapply (proj1 (proj2 (proj2
             (C2_keep_default_scp sample_store "./adfconfig.yml" "o-123"
                (document_scp (VDict [("keep-default-scp", VStr "maybe")]))
                eq_refl eq_refl eq_refl eq_refl eq_refl eq_refl))));
      reflexivity.
  - eapply (proj1 (proj2 (proj2 (proj2
             (C2_keep_default_scp sample_store "./adfconfig.yml" "o-123"
                (document_scp (VDict [("keep-default-scp", VStr "disabled")]))
                eq_refl eq_refl eq_refl eq_refl eq_refl eq_refl)))));
      [reflexivity | reflexivity | reflexivity | right; reflexivity].
  - eapply (proj2 (proj2 (proj2 (proj2
             (C2_keep_default_scp sample_store "./adfconfig.yml" "o-123"
                document_without_scp
                eq_refl eq_refl eq_refl eq_refl eq_refl eq_refl)))));
      reflexivity.
Defined.

(* ================================================================== *)
(** ** Notification *)
(* ================================================================== *)

Lemma eq_str_true v s : eq_str v s = true <-> v = VStr s.
Proof.
  destruct v; cbn; try (split; [discriminate | discriminate]).
  rewrite String.eqb_eq. split; [intros -> | intros [= ->]]; reflexivity.
Qed.

(** C7: for a valid document whose first notification entry is the
    mapping [e], whatever entries follow it: [notification_endpoint] is
    [e.get("target")]; when [e.get("type")] is ["slack"],
    [notification_type] is ["lambda"] and [notification_channel] is the
    target; otherwise [notification_type] is ["email"] and
    [notification_channel] is [None]. *)
Theorem C7_notification_from_first_entry ps path org d c e rest :
  valid_document d = true ->
  doc_config d = inr (VDict c) ->
  dict_get c "main-notification-endpoint" = Some (VList (VDict e :: rest)) ->
  exists cfg,
    construct ps path org d = inr cfg /\
    notification_endpoint cfg = entry_field e "target" /\
    (entry_field e "type" = VStr "slack" ->
     notification_type cfg = VStr "lambda" /\
     notification_channel cfg = entry_field e "target") /\
    (entry_field e "type" <> VStr "slack" ->
     notification_type cfg = VStr "email" /\
     notification_channel cfg = VNone).
Proof.
  intros V Hc Hn.
  destruct (construct_valid ps path org d V)
    as (T & tr & dar & car & c' & e' & rest' & ex & R & E).
  pose proof (reads_config_eq _ _ _ _ _ _ _ _ _ _ R Hc) as ->.
  pose proof (reads_notification _ _ _ _ _ _ _ _ _ R) as Hn'.
  rewrite Hn in Hn'. injection Hn' as <- <-.
  eexists. split; [exact E | ].
  destruct (validated_others
              (parsed_of (set_config_contents (init_attributes ps path org) d)
                 tr dar car c e ex)) as (-> & -> & -> & _).
  cbn [parsed_of parsed notification_type notification_endpoint notification_channel].
  split; [reflexivity | ]. split.
  - intros Hs. apply eq_str_true in Hs. rewrite Hs. split; reflexivity.
  - intros Hs. destruct (eq_str (entry_field e "type") "slack") eqn:Es.
    + apply eq_str_true in Es. contradiction.
    + split; reflexivity.
Qed.

Lemma C7_notification_from_first_entry_witness :
  exists cfg,
    construct sample_store "./adfconfig.yml" "o-123"
      (document_endpoints
         (VList [VDict [("type", VStr "slack"); ("target", VStr "#chan")];
                 VDict [("type", VStr "email"); ("target", VStr "a@b.com")]]))
      = inr cfg /\
    notification_endpoint cfg = VStr "#chan" /\
    notification_type cfg = VStr "lambda" /\
    notification_channel cfg = VStr "#chan".
Proof.
  destruct (C7_notification_from_first_entry sample_store "./adfconfig.yml" "o-123"
              (document_endpoints
                 (VList [VDict [("type", VStr "slack"); ("target", VStr "#chan")];
                         VDict [("type", VStr "email"); ("target", VStr "a@b.com")]]))
              _ _ _ eq_refl eq_refl eq_refl)
    as (cfg & E & He & Hslack & _).
  exists cfg. split; [exact E | ]. split; [exact He | ].
  exact (Hslack eq_refl).
Defined.

(* ================================================================== *)
(** ** Extensions *)
(* ================================================================== *)

Lemma dict_get_set_same kvs k v : dict_get (dict_set kvs k v) k = Some v.
Proof.
  induction kvs as [ | [k' v'] kvs IH]; cbn.
  - rewrite String.eqb_refl. reflexivity.
  - destruct (String.eqb k' k) eqn:E; cbn; rewrite E; [reflexivity | exact IH].
Qed.

Lemma dict_get_set_other kvs k v k' :
  k <> k' -> dict_get (dict_set kvs k v) k' = dict_get kvs k'.
Proof.
  intros Hne. induction kvs as [ | [k0 v0] kvs IH]; cbn.
  - destruct (String.eqb k k') eqn:E; [apply String.eqb_eq in E; contradiction | reflexivity].
  - destruct (String.eqb k0 k) eqn:E; cbn.
    + apply String.eqb_eq in E. subst k0.
      destruct (String.eqb k k') eqn:E'; [apply String.eqb_eq in E'; contradiction | reflexivity].
    + rewrite IH. reflexivity.
Qed.

(** What the defaulting does to a mapping of extensions. *)
Lemma with_default_extensions_spec ex :
  (forall name, In name AVAILABLE_EXTENSIONS -> dict_get ex name = None ->
                dict_get (with_default_extensions ex) name = Some default_extension) /\
  (forall name v, dict_get ex name = Some v ->
                  dict_get (with_default_extensions ex) name = Some v) /\
  (forall name, In name AVAILABLE_EXTENSIONS ->
                dict_mem (with_default_extensions ex) name = true) /\
  (forall name, ~ In name AVAILABLE_EXTENSIONS ->
                dict_get (with_default_extensions ex) name = dict_get ex name).
Proof.
  unfold with_default_extensions, AVAILABLE_EXTENSIONS, dict_mem. cbn [filter In].
  destruct (dict_get ex "terraform") as [t | ] eqn:Et; cbn [negb fold_left].
  - repeat split.
    + intros name [<- | []] H. congruence.
    + intros name v H. exact H.
    + intros name [<- | []]. rewrite Et. reflexivity.
  - repeat split.
    + intros name [<- | []] _. apply dict_get_set_same.
    + intros name v H. rewrite dict_get_set_other; [exact H | ]. intros <-. congruence.
    + intros name [<- | []]. rewrite dict_get_set_same. reflexivity.
    + intros name H. apply dict_get_set_other. intros <-. apply H. left. reflexivity.
Qed.

(** C8: once the fields are parsed, [extensions] is the mapping of the
    document (empty when the document has none) in which every known
    extension name that was not a key has got [{"enabled": False}] and
    every entry that was there is kept; so every known name is a key, and
    an empty mapping becomes [{"terraform": {"enabled": False}}].  The
    validator does not touch it. *)
Theorem C8_default_extensions :
  (forall self st,
     parse_fields self = inr st ->
     exists ex ex',
       doc_extensions (config_contents self) = inr (VDict ex) /\
       extensions st = VDict ex' /\
       (forall name, In name AVAILABLE_EXTENSIONS -> dict_get ex name = None ->
                     dict_get ex' name = Some default_extension) /\
       (forall name v, dict_get ex name = Some v -> dict_get ex' name = Some v) /\
       (forall name, In name AVAILABLE_EXTENSIONS -> dict_mem ex' name = true) /\
       (ex = [] -> ex' = [("terraform", VDict [("enabled", VBool false)])])) /\
  (forall self cfg,
     _parse_config self = inr cfg ->
     exists st, parse_fields self = inr st /\ extensions cfg = extensions st) /\
  AVAILABLE_EXTENSIONS = ["terraform"].
Proof.
  split; [ | split; [ | reflexivity]].
  - intros self st H.
    destruct (parse_fields_inv self st H)
      as (T & tr & dar & car & c & prot & nt & ne & nc & ex & _ & _ & _ & _ & _ & _ & _ & He & ->).
    exists ex, (with_default_extensions ex).
    split; [exact He | ]. split; [reflexivity | ].
    destruct (with_default_extensions_spec ex) as (H1 & H2 & H3 & _).
    split; [exact H1 | ]. split; [exact H2 | ]. split; [exact H3 | ].
    intros ->. reflexivity.
  - intros self cfg H. unfold _parse_config in H. bind_inv H.
    exists c. split; [reflexivity | ].
    unfold _validate in H. bind_inv H. bind_inv H. bind_inv H. injection H as <-.
    unfold check_deployment_account_region in E2. unfold normalize_target_regions.
    destruct (deployment_account_region c) as [ | | | | [ | x [ | y l]] | ];
      try discriminate E2; injection E2 as <-;
      cbn [target_regions set_deployment_account_region];
      destruct (is_list (target_regions c)); reflexivity.
Qed.

Lemma C8_default_extensions_witness :
  exists cfg,
    construct sample_store "./adfconfig.yml" "o-123" (document_extensions (VDict []))
      = inr cfg /\
    extensions cfg = VDict [("terraform", VDict [("enabled", VBool false)])].
Proof.
  pose proof C8_default_extensions as (P & V & _).
  set (self := set_config_contents
                 (init_attributes sample_store "./adfconfig.yml" "o-123")
                 (document_extensions (VDict []))).
  set (parsed_object :=
         parsed_of self (VList [VStr "eu-west-1"; VStr "eu-central-1"])
           (VStr "eu-central-1") (VStr "adf-cross-account-role")
           [("main-notification-endpoint", sample_endpoints);
            ("moves", VList [VDict [("name", VStr "to-root"); ("action", VStr "safe")]]);
            ("protected", VList []);
            ("scp", VDict [("keep-default-scp", VStr "enabled")])]
           [("type", VStr "email"); ("target", VStr "a@b.com")] []).
  exists (validated parsed_object). split; [reflexivity | ].
  destruct (V self (validated parsed_object) eq_refl) as (st & Hst & ->).
  destruct (P self st Hst) as (ex & ex' & He & -> & _ & _ & _ & Hempty).
  cbv in He. injection He as <-.
  rewrite (Hempty eq_refl). reflexivity.
Defined.

(* ================================================================== *)
(** ** Indexing *)
(* ================================================================== *)

Lemma seq_index_first {A} (x : A) (l : list A) : seq_index (x :: l) 0 = inr x.
Proof.
  unfold seq_index. cbn [length Z.ltb Z.compare].
  replace (Z.of_nat (S (length l)) <=? 0)%Z with false by (symmetry; apply Z.leb_gt; lia).
  reflexivity.
Qed.

(** [v[0]] is the general subscript at [0]. *)
Lemma py_index0_getitem v : py_index0 v = py_getitem v (VInt 0).
Proof.
  destruct v as [ | | | s | l | ]; try reflexivity.
  - destruct s as [ | ch s]; [reflexivity | ].
    cbn [py_index0 py_getitem list_ascii_of_string].
    rewrite seq_index_first. reflexivity.
  - destruct l as [ | x l]; [reflexivity | ].
    cbn [py_index0 py_getitem]. rewrite seq_index_first. reflexivity.
Qed.

(* ================================================================== *)
(** ** Equality of values *)
(* ================================================================== *)

Lemma PyVal_eqb_refl : forall v, PyVal_eqb v v = true.
Proof.
  fix IH 1. intros [ | b | z | s | l | kvs]; cbn.
  - reflexivity.
  - apply Bool.eqb_reflx.
  - apply Z.eqb_refl.
  - apply String.eqb_refl.
  - induction l as [ | x l IHl]; [reflexivity | ].
    rewrite (IH x). exact IHl.
  - induction kvs as [ | [k x] kvs IHk]; [reflexivity | ].
    rewrite String.eqb_refl, (IH x). exact IHk.
Qed.

Lemma PyVal_eqb_eq : forall a b, PyVal_eqb a b = true -> a = b.
Proof.
  fix IH 1. intros [ | x | x | x | l | l] [ | y | y | y | m | m]; cbn;
    try discriminate; try reflexivity.
  - intros H. apply Bool.eqb_prop in H. congruence.
  - intros H. apply Z.eqb_eq in H. congruence.
  - intros H. apply String.eqb_eq in H. congruence.
  - intros H. f_equal. revert m H.
    induction l as [ | x l IHl]; intros [ | y m] H; try discriminate; [reflexivity | ].
    apply andb_true_iff in H. destruct H as [Hx Hl].
    rewrite (IH x y Hx), (IHl m Hl). reflexivity.
  - intros H. f_equal. revert m H.
    induction l as [ | [k x] l IHl]; intros [ | [k' y] m] H; try discriminate;
      [reflexivity | ].
    apply andb_true_iff in H. destruct H as [H Hl].
    apply andb_true_iff in H. destruct H as [Hk Hx].
    apply String.eqb_eq in Hk. subst k'.
    rewrite (IH x y Hx), (IHl m Hl). reflexivity.
Qed.

(** A call writes the key of its own client's region. *)
Lemma written_by_self call :
  written_by call (region (put_client call)) (put_key call) = true.
Proof. unfold written_by. rewrite PyVal_eqb_refl, String.eqb_refl. reflexivity. Qed.

(* ================================================================== *)
(** ** Persistence *)
(* ================================================================== *)

Section PersistFacts.

Variable ADF_VERSION : string.
Variable py_repr : PyVal -> string.
Variable object_repr : ParameterStore -> string.

Lemma bind_trace_in {A B} (m : IO.t A) (f : A -> IO.t B) call :
  In call (IO.trace (IO.bind m f)) ->
  In call (IO.trace m) \/ exists a, In call (IO.trace (f a)).
Proof.
  unfold IO.bind, IO.trace. destruct m as [t [err | a]]; cbn.
  - intros H. left. exact H.
  - intros H. apply in_app_or in H. destruct H as [H | H].
    + left. exact H.
    + right. exists a. exact H.
Qed.

Lemma for_each_trace_in {A} (l : list A) (body : A -> IO.t unit) call :
  In call (IO.trace (IO.for_each l body)) ->
  exists x, In x l /\ In call (IO.trace (body x)).
Proof.
  induction l as [ | x l IH]; cbn [IO.for_each].
  - intros [].
  - intros H. apply bind_trace_in in H. destruct H as [H | [_ H]].
    + exists x. split; [left; reflexivity | exact H].
    + destruct (IH H) as (y & Hy & Hc). exists y. split; [right; exact Hy | exact Hc].
Qed.

Lemma bind_lift_value {A B} (a : A) (f : A -> IO.t B) :
  IO.bind (IO.lift (inr a)) f = f a.
Proof. unfold IO.bind, IO.lift. cbn. destruct (f a). reflexivity. Qed.

(** The first loop makes seven calls and raises nothing. *)
Lemma store_attributes_calls self :
  store_attributes py_repr object_repr self = (attribute_calls py_repr self, inr tt).
Proof. reflexivity. Qed.

Lemma extension_key_not_excluded extension attribute :
  excluded (extension_key py_repr extension attribute) = false.
Proof. reflexivity. Qed.

Lemma dict_get_key (kvs : list (string * PyVal)) k :
  In k (map fst kvs) -> exists v, dict_get kvs k = Some v.
Proof.
  induction kvs as [ | [k' v'] kvs IH]; cbn; [intros [] | ].
  intros [-> | H].
  - rewrite String.eqb_refl. eexists. reflexivity.
  - destruct (String.eqb k' k); [eexists; reflexivity | exact (IH H)].
Qed.

(** The inner loop over the keys of a mapping of attributes. *)
Lemma store_extension_attributes client extension attributes (keys : list (string * PyVal)) :
  (forall kv, In kv keys -> In (fst kv) (map fst attributes)) ->
  IO.for_each (map (fun kv => VStr (fst kv)) keys)
    (fun attribute =>
       IO.bind (IO.lift (py_getitem (VDict attributes) attribute))
         (fun v => put_parameter client (extension_key py_repr extension attribute)
                     (VStr (py_str py_repr v)))) =
  (map (fun kv =>
          {| put_client := client;
             put_key := "/adf/extensions/" ++ extension ++ "/" ++ fst kv;
             put_value := VStr (py_str py_repr (entry_field attributes (fst kv))) |})
     keys, inr tt).
Proof.
  induction keys as [ | kv keys IH]; intros Hin; [reflexivity | ].
  cbn [map IO.for_each]. rewrite IH by (intros kv' H; apply Hin; right; exact H).
  destruct (dict_get_key attributes (fst kv)) as [v Hv]; [apply Hin; left; reflexivity | ].
  assert (Hf : entry_field attributes (fst kv) = v)
    by (unfold entry_field; rewrite Hv; reflexivity).
  rewrite Hf. cbn [py_getitem]. rewrite Hv. reflexivity.
Qed.

(** The second loop, when the attributes of every extension are a
    mapping: one call per extension and attribute, and no exception. *)
Lemma store_extensions_calls self exts :
  extensions self = VDict exts ->
  Forall (fun extension => is_mapping (snd extension)) exts ->
  store_extensions py_repr self =
    (flat_map (extension_calls py_repr (parameters_client self)) exts, inr tt).
Proof.
  intros He Hall. unfold store_extensions. rewrite He.
  set (body := fun '(extension, attributes) => _).
  assert (H : IO.for_each exts body =
              (flat_map (extension_calls py_repr (parameters_client self)) exts, inr tt)).
  { clear He.
    induction Hall as [ | [name attrs] exts [attributes Hattrs] Hall IH]; [reflexivity | ].
    cbn [snd] in Hattrs. subst attrs.
    cbn [IO.for_each flat_map]. rewrite IH.
    unfold body at 1. cbn [py_iter]. unfold Exc.ret. rewrite bind_lift_value.
    rewrite store_extension_attributes by (intros kv H; apply in_map; exact H).
    reflexivity. }
  cbn [py_items]. unfold Exc.ret. rewrite bind_lift_value. exact H.
Qed.

Lemma excluded_false_iff key : excluded key = false <-> ~ In key excluded_keys.
Proof.
  unfold excluded. split.
  - intros H Hin.
    assert (E : existsb (String.eqb key) excluded_keys = true).
    { apply existsb_exists. exists key. split; [exact Hin | apply String.eqb_refl]. }
    congruence.
  - intros H. destruct (existsb (String.eqb key) excluded_keys) eqn:E; [ | reflexivity].
    apply existsb_exists in E. destruct E as (k & Hin & Hk).
    apply String.eqb_eq in Hk. subst k. contradiction.
Qed.

(** Every call of the second loop goes to the primary client, under an
    extension key. *)
Lemma store_extensions_trace_in self call :
  In call (IO.trace (store_extensions py_repr self)) ->
  exists extension attribute,
    put_key call = extension_key py_repr extension attribute /\
    put_client call = parameters_client self.
Proof.
  unfold store_extensions. intros H.
  apply bind_trace_in in H. destruct H as [[] | [items H]].
  apply for_each_trace_in in H. destruct H as ([extension attributes] & _ & H).
  apply bind_trace_in in H. destruct H as [[] | [elements H]].
  apply for_each_trace_in in H. destruct H as (attribute & _ & H).
  apply bind_trace_in in H. destruct H as [[] | [v H]].
  destruct H as [<- | []].
  exists extension, attribute. split; reflexivity.
Qed.

(** C5: no call of [_store_config], whether or not the pass ends in an
    exception, uses one of the eight excluded names as its key, and every
    call goes to the primary client; when the attributes of every extension
    are a mapping, the pass makes the seven attribute calls and then one
    call per extension and attribute, under the key
    [/adf/extensions/{extension}/{attribute}]. *)
Theorem C5_primary_store_keys self :
  (forall call,
     In call (IO.trace (_store_config py_repr object_repr self)) ->
     ~ In (put_key call) excluded_keys /\ put_client call = parameters_client self) /\
  (forall exts,
     extensions self = VDict exts ->
     Forall (fun extension => is_mapping (snd extension)) exts ->
     _store_config py_repr object_repr self =
       ((attribute_calls py_repr self ++
         flat_map (extension_calls py_repr (parameters_client self)) exts)%list,
        inr tt) /\
     map put_key (IO.trace (_store_config py_repr object_repr self)) =
       (["organization_id"; "config"; "deployment_account_region";
         "notification_channel"; "protected"; "target_regions";
         "cross_account_access_role"] ++ flat_map attribute_keys exts)%list) /\
  excluded_keys =
    ["client"; "client_deployment_region"; "parameters_client"; "config_contents";
     "config_path"; "notification_endpoint"; "notification_type"; "extensions"].
Proof.
  split; [ | split; [ | reflexivity]].
  - intros call H. unfold _store_config in H.
    apply bind_trace_in in H. destruct H as [H | [_ H]].
    + rewrite store_attributes_calls in H. cbn [IO.trace fst attribute_calls map] in H.
      repeat (destruct H as [<- | H];
              [split; [apply excluded_false_iff; reflexivity | reflexivity] | ]).
      destruct H.
    + destruct (store_extensions_trace_in self call H) as (extension & attribute & -> & ->).
      split; [ | reflexivity].
      apply excluded_false_iff. apply extension_key_not_excluded.
  - intros exts He Hall.
    assert (E : _store_config py_repr object_repr self =
                ((attribute_calls py_repr self ++
                  flat_map (extension_calls py_repr (parameters_client self)) exts)%list,
                 inr tt)).
    { unfold _store_config. rewrite store_attributes_calls.
      rewrite (store_extensions_calls self exts He Hall). reflexivity. }
    split; [exact E | ].
    rewrite E. cbn [IO.trace fst]. rewrite map_app. f_equal.
    clear. induction exts as [ | [name attrs] exts IH]; [reflexivity | ].
    cbn [flat_map]. rewrite map_app, IH. f_equal.
    unfold extension_calls, attribute_keys. cbn [snd fst].
    destruct attrs; try reflexivity.
    rewrite map_map. reflexivity.
Qed.

(** C9: the cross-region pass builds a client for
    [deployment_account_region], keeps it in [client_deployment_region],
    and makes exactly two calls through it: [adf_version] with
    [ADF_VERSION], then [cross_account_access_role] with the role. *)
Theorem C9_cross_region_two_writes self :
  let client := {| region := deployment_account_region self |} in
  _store_cross_region_config ADF_VERSION self =
    ([{| put_client := client;
         put_key := "adf_version";
         put_value := VStr ADF_VERSION |};
      {| put_client := client;
         put_key := "cross_account_access_role";
         put_value := cross_account_access_role self |}],
     inr (set_client_deployment_region self (Some client))) /\
  length (IO.trace (_store_cross_region_config ADF_VERSION self)) = 2%nat.
Proof. split; reflexivity. Qed.

(** [store_config] does not read [client_deployment_region], and assigns
    it last. *)
Lemma store_config_ignores_client self c :
  store_config ADF_VERSION py_repr object_repr (set_client_deployment_region self c) =
  store_config ADF_VERSION py_repr object_repr self.
Proof. reflexivity. Qed.

Lemma store_config_result self self' :
  IO.result (store_config ADF_VERSION py_repr object_repr self) = inr self' ->
  self' = set_client_deployment_region self
            (Some {| region := deployment_account_region self |}).
Proof.
  unfold store_config, IO.result, IO.bind.
  destruct (snd (_store_config py_repr object_repr self)); cbn; [discriminate | ].
  intros [= <-]. reflexivity.
Qed.

Lemma store_run_app calls calls' s :
  store_run (calls ++ calls') s = store_run calls' (store_run calls s).
Proof. unfold store_run. apply fold_left_app. Qed.

(** After [calls], a key holds what the last call that wrote it put. *)
Lemma store_run_last calls s r k :
  store_run calls s r k =
    match find (fun call => written_by call r k) (rev calls) with
    | Some call => Some (put_value call)
    | None => s r k
    end.
Proof.
  revert s. induction calls as [ | call calls IH] using rev_ind; intros s; [reflexivity | ].
  rewrite store_run_app, rev_app_distr. cbn [rev app find store_run fold_left].
  unfold store_put at 1. destruct (written_by call r k); [reflexivity | ].
  apply IH.
Qed.

(** Running the same calls again leaves the store as it was. *)
Lemma store_run_twice calls s r k :
  store_run (calls ++ calls) s r k = store_run calls s r k.
Proof.
  rewrite store_run_app. rewrite (store_run_last calls (store_run calls s)).
  rewrite (store_run_last calls s).
  destruct (find (fun call => written_by call r k) (rev calls)); reflexivity.
Qed.

(** C6: a second [store_config] on the object the first one left makes
    the same calls, with the same keys and values in the same order, and
    ends the same way; run after the first, it leaves every key of every
    region's store with the value it had. *)
Theorem C6_store_config_idempotent self :
  let first := store_config ADF_VERSION py_repr object_repr self in
  let second :=
    store_config ADF_VERSION py_repr object_repr
      (self_after ADF_VERSION py_repr object_repr self) in
  IO.trace second = IO.trace first /\
  IO.result second = IO.result first /\
  forall s r k,
    store_run (IO.trace first ++ IO.trace second) s r k = store_run (IO.trace first) s r k.
Proof.
  cbv zeta.
  assert (E : store_config ADF_VERSION py_repr object_repr
                (self_after ADF_VERSION py_repr object_repr self) =
              store_config ADF_VERSION py_repr object_repr self).
  { unfold self_after.
    destruct (IO.result (store_config ADF_VERSION py_repr object_repr self))
      as [err | self'] eqn:R; [reflexivity | ].
    rewrite (store_config_result self self' R).
    apply store_config_ignores_client. }
  rewrite E. split; [reflexivity | ]. split; [reflexivity | ].
  intros s r k. apply store_run_twice.
Qed.

End PersistFacts.

Lemma C5_primary_store_keys_witness :
  ~ In "organization_id" excluded_keys /\
  map put_key
    (IO.trace (_store_config (fun _ => "repr") (fun _ => "object") object_with_extensions))
  = ["organization_id"; "config"; "deployment_account_region";
     "notification_channel"; "protected"; "target_regions";
     "cross_account_access_role";
     "/adf/extensions/terraform/enabled"; "/adf/extensions/terraform/version"].
Proof.
  split.
  - apply (proj1 (C5_primary_store_keys (fun _ => "repr") (fun _ => "object")
                    object_with_extensions)
             {| put_client := sample_store;
                put_key := "organization_id";
                put_value := VStr "o-123" |}).
    left. reflexivity.
  - apply (proj1 (proj2 (C5_primary_store_keys (fun _ => "repr") (fun _ => "object")
                           object_with_extensions))
             [("terraform", VDict [("enabled", VBool true); ("version", VStr "1.5")])]).
    + reflexivity.
    + constructor; [ | constructor]. eexists. reflexivity.
Defined.

(* ################################################################## *)
(** * Further properties of the code *)
(* ################################################################## *)

(* ================================================================== *)
(** ** Which documents are accepted, and how the others fail *)
(* ================================================================== *)

(** X1: [__init__] returns an object exactly when [ORGANIZATION_ID] is in
    the environment, [AWS_REGION] is there too unless a parameter store
    was passed in, and the document is well formed. *)
Theorem X1_init_succeeds_iff env parameter_store config_path d :
  (exists cfg, __init__ env parameter_store config_path d = inr cfg) <->
  ORGANIZATION_ID env <> None /\
  (parameter_store = None -> AWS_REGION env <> None) /\
  valid_document d = true.
Proof.
  unfold __init__.
  destruct parameter_store as [ps | ]; destruct (AWS_REGION env) as [r | ];
    destruct (ORGANIZATION_ID env) as [org | ]; cbn [environ_get Exc.bind Exc.ret Exc.raise];
    try rewrite construct_succeeds_iff;
    split;
    try (intros [cfg H]; discriminate H);
    try (intros (H1 & H2 & H3); exfalso; (apply H1; reflexivity) || (apply H2; reflexivity));
    try (intros H; repeat split; (discriminate || exact H));
    try (intros (_ & _ & H); exact H).
Qed.

Lemma reads_other_parts d T tr dar car c e rest ex :
  reads d T tr dar car c e rest ex ->
  role_readable d = true /\ notification_ok d = true /\ extensions_ok d = true.
Proof.
  intros [_ _ _ R4 R5 R6 R7].
  unfold role_readable, notification_ok, extensions_ok.
  rewrite R4, R5, R6, R7. repeat split.
Qed.

Lemma role_readable_inv d :
  role_readable d = true -> exists car, doc_cross_account_access d = inr car.
Proof.
  unfold role_readable. destruct (doc_cross_account_access d) as [ | car];
    [discriminate | ]. intros _. exists car. reflexivity.
Qed.

Lemma moves_missing d c :
  moves_ok d = false -> doc_config d = inr (VDict c) ->
  is_none (entry_field c "moves") = true.
Proof.
  unfold moves_ok, entry_field. intros H E. rewrite E in H.
  destruct (dict_get c "moves") as [v | ]; [ | reflexivity].
  destruct (is_none v); [reflexivity | discriminate H].
Qed.

(** X2: once the lookups of the document go through, a missing
    [roles.cross-account-access], [regions.deployment-account] or
    [config.moves] is reported as the missing-properties
    [InvalidConfigError], whatever [config.scp] and the shape of the
    deployment region are. *)
Theorem X2_missing_required_reported ps path org d :
  targets_ok d = true -> role_readable d = true ->
  notification_ok d = true -> extensions_ok d = true ->
  role_ok d = false \/ doc_deployment_account d = inr VNone \/ moves_ok d = false ->
  construct ps path org d = inl (InvalidConfigError missing_properties_msg).
Proof.
  intros Ht Hr Hn He Hmiss.
  destruct (role_readable_inv d Hr) as [car Hcar].
  destruct (reads_intro d car Ht Hcar Hn He) as (T & tr & dar & c & e & rest & ex & R).
  apply (construct_missing_required ps path org d T tr dar car c e rest ex R).
  destruct Hmiss as [H | [H | H]].
  - unfold role_ok in H. rewrite Hcar in H. apply negb_false_iff in H.
    rewrite H. reflexivity.
  - rewrite (reads_deployment_account_eq _ _ _ _ _ _ _ _ _ _ R H).
    cbn [is_none]. rewrite orb_true_r. reflexivity.
  - rewrite (moves_missing d c H (reads_config _ _ _ _ _ _ _ _ _ R)).
    apply orb_true_r.
Qed.

Lemma X2_missing_required_reported_witness :
  construct sample_store "./adfconfig.yml" "o-123"
    (document_roles_config (VDict [])
       (config_with [("scp", VDict [("keep-default-scp", VStr "maybe")])]))
    = inl (InvalidConfigError missing_properties_msg).
Proof.
  apply X2_missing_required_reported; try reflexivity.
  left. reflexivity.
Defined.

(** Failed lookups. *)

Lemma py_get_default_error d k v e :
  py_get_default d k v = inl e -> e = AttributeError.
Proof. destruct d; cbn; intros [= <-] || discriminate; reflexivity. Qed.

Lemma py_index0_error v e : py_index0 v = inl e -> lookup_error e = true.
Proof.
  destruct v as [ | | | [ | ch s] | [ | x l] | ]; cbn;
    try discriminate; intros [= <-]; reflexivity.
Qed.

Lemma bind_error {A B} (m : Exc.t A) (f : A -> Exc.t B) e :
  Exc.bind m f = inl e -> m = inl e \/ exists a, m = inr a /\ f a = inl e.
Proof.
  destruct m as [e' | a]; cbn.
  - intros [= ->]. left. reflexivity.
  - intros H. right. exists a. split; [reflexivity | exact H].
Qed.

Ltac lookup_failed :=
  repeat match goal with
         | H : Exc.bind _ _ = inl _ |- _ =>
             apply bind_error in H; destruct H as [H | (? & _ & H)]
         | H : py_get_default _ _ _ = inl _ |- _ =>
             apply py_get_default_error in H; subst; reflexivity
         | H : py_get _ _ = inl _ |- _ =>
             apply py_get_default_error in H; subst; reflexivity
         | H : py_index0 _ = inl _ |- _ =>
             apply py_index0_error in H; exact H
         | H : Exc.ret _ = inl _ |- _ => discriminate H
         | H : inr _ = inl _ |- _ => discriminate H
         end.

(** [parse_fields] raises nothing but the exceptions of failed lookups. *)
Lemma parse_fields_error self e :
  parse_fields self = inl e -> lookup_error e = true.
Proof.
  unfold parse_fields, doc_targets, doc_deployment_account, doc_cross_account_access,
    doc_config, doc_extensions, doc_regions, parse_target_regions, parse_notification,
    _configure_default_extensions_behavior.
  intros H. lookup_failed.
  destruct x5 as [[nt ne] nc]. lookup_failed.
  cbn [extensions] in H. destruct x5; try discriminate H; injection H as <-; reflexivity.
Qed.

Lemma validate_error_message self msg :
  _validate self = inl (InvalidConfigError msg) -> In msg validation_messages.
Proof.
  unfold _validate, check_required, check_scp, check_deployment_account_region,
    validation_messages.
  intros H.
  repeat match goal with
         | H : Exc.bind _ _ = inl _ |- _ =>
             apply bind_error in H; destruct H as [H | (? & _ & H)]
         | H : py_get _ _ = inl _ |- _ =>
             apply py_get_default_error in H; discriminate H
         | H : (if ?t then _ else _) = inl _ |- _ => destruct t
         | H : Exc.raise _ = inl _ |- _ =>
             first [discriminate H | injection H as <-; cbn; tauto]
         | H : Exc.ret _ = inl _ |- _ => discriminate H
         | H : match ?v with _ => _ end = inl _ |- _ => destruct v
         end.
Qed.

(** X3: an [InvalidConfigError] carries one of the three messages of
    [_validate], and is raised only for a document all of whose lookups
    went through; everything that fails before that escapes as the
    exception of the failed lookup. *)
Theorem X3_invalid_config_error_origin ps path org d :
  (forall msg,
     construct ps path org d = inl (InvalidConfigError msg) ->
     In msg validation_messages /\
     targets_ok d = true /\ role_readable d = true /\
     notification_ok d = true /\ extensions_ok d = true) /\
  (forall e,
     construct ps path org d = inl e ->
     targets_ok d && role_readable d && notification_ok d && extensions_ok d = false ->
     lookup_error e = true).
Proof.
  assert (Parsed : forall st,
             parse_fields (set_config_contents (init_attributes ps path org) d) = inr st ->
             targets_ok d = true /\ role_readable d = true /\
             notification_ok d = true /\ extensions_ok d = true).
  { intros st E. apply parse_fields_inv in E.
    destruct E as (T & tr & dar & car & cv & prot & nt & ne & nc & ex
                   & H1 & H2 & H3 & H4 & H5 & H6 & H7 & H8 & _).
    cbn [config_contents set_config_contents] in *.
    destruct (parse_notification_inv _ _ H7) as (c' & e & rest & -> & Hn).
    assert (R : reads d T tr dar car c' e rest ex) by (constructor; assumption).
    split; [exact (reads_targets_ok _ _ _ _ _ _ _ _ _ R) | ].
    exact (reads_other_parts _ _ _ _ _ _ _ _ _ R). }
  split.
  - intros msg H. unfold construct, _load_config_file, _parse_config in H.
    destruct (parse_fields (set_config_contents (init_attributes ps path org) d))
      as [e | st] eqn:E; cbn [Exc.bind] in H.
    + injection H as ->. apply parse_fields_error in E. discriminate E.
    + split; [exact (validate_error_message st msg H) | exact (Parsed st eq_refl)].
  - intros e H Hbad. unfold construct, _load_config_file, _parse_config in H.
    destruct (parse_fields (set_config_contents (init_attributes ps path org) d))
      as [e' | st] eqn:E; cbn [Exc.bind] in H.
    + injection H as ->. exact (parse_fields_error _ _ E).
    + destruct (Parsed st eq_refl) as (H1 & H2 & H3 & H4).
      rewrite H1, H2, H3, H4 in Hbad. discriminate Hbad.
Qed.

Lemma X3_invalid_config_error_origin_witness :
  In scp_msg validation_messages /\
  lookup_error AttributeError = true.
Proof.
  pose proof (X3_invalid_config_error_origin sample_store "./adfconfig.yml" "o-123"
                (document_scp (VDict [("keep-default-scp", VStr "maybe")]))) as [M _].
  pose proof (X3_invalid_config_error_origin sample_store "./adfconfig.yml" "o-123"
                document_without_config) as [_ L].
  split.
  - exact (proj1 (M scp_msg eq_refl)).
  - exact (L AttributeError eq_refl eq_refl).
Defined.

(** X4: an empty list as [regions.deployment-account] passes the
    missing-properties test and the length test, and the unpacking
    [[x] = []] of line 86 raises [ValueError]: the document is refused, but
    not with an [InvalidConfigError]. *)
Theorem X4_empty_deployment_account_list ps path org d :
  targets_ok d = true -> role_ok d = true -> moves_ok d = true ->
  notification_ok d = true -> scp_ok d = true -> extensions_ok d = true ->
  doc_deployment_account d = inr (VList []) ->
  construct ps path org d = inl ValueError.
Proof.
  intros Ht Hr Hm Hn Hs He Hd.
  destruct (role_ok_inv d Hr) as (car & Hcar & Hcn).
  destruct (reads_intro d car Ht Hcar Hn He) as (T & tr & dar & c & e & rest & ex & R).
  pose proof (reads_deployment_account_eq _ _ _ _ _ _ _ _ _ _ R Hd) as ->.
  rewrite (construct_required_present ps path org d T tr (VList []) car c e rest ex R Hcn)
    by (reflexivity ||
        (apply (moves_ok_inv d); [assumption | exact (reads_config _ _ _ _ _ _ _ _ _ R)])).
  cbv zeta.
  rewrite (scp_ok_inv d c) by
    (assumption || exact (reads_config _ _ _ _ _ _ _ _ _ R) || reflexivity).
  reflexivity.
Qed.

Lemma X4_empty_deployment_account_list_witness :
  construct sample_store "./adfconfig.yml" "o-123" (document_deployment_account (VList []))
    = inl ValueError.
Proof. apply X4_empty_deployment_account_list; reflexivity. Defined.

(** X5: a [config.scp] that is not a mapping: a truthy one (a non-empty
    string or list, a non-zero number, [True]) makes the check call [get]
    on it, and the [AttributeError] is not caught by the handler of the
    [assert]; a falsy one ([None], [False], [0], an empty string or list)
    is skipped like an absent one.  An empty mapping is skipped too. *)
Theorem X5_scp_not_a_mapping ps path org d c v :
  targets_ok d = true -> deployment_account_ok d = true -> role_ok d = true ->
  moves_ok d = true -> notification_ok d = true -> extensions_ok d = true ->
  doc_config d = inr (VDict c) ->
  dict_get c "scp" = Some v ->
  ((forall s, v <> VDict s) -> py_truthy v = true ->
   construct ps path org d = inl AttributeError) /\
  (py_truthy v = false -> exists cfg, construct ps path org d = inr cfg).
Proof.
  intros Ht Hd Hr Hm Hn He Hc Hv.
  destruct (construct_scp ps path org d Ht Hd Hr Hm Hn He) as (c' & st & Hc' & Hst & E).
  rewrite Hc in Hc'. injection Hc' as <-.
  rewrite (check_scp_spec st c Hst), Hv in E.
  split.
  - intros Hnm Htruthy. rewrite E.
    destruct v as [ | | | | | s]; try (rewrite Htruthy; reflexivity).
    exfalso. exact (Hnm s eq_refl).
  - intros Hfalsy. rewrite E.
    destruct v as [ | | | | | [ | kv s]]; try (rewrite Hfalsy; eexists; reflexivity).
    discriminate Hfalsy.
Qed.

Lemma X5_scp_not_a_mapping_witness :
  construct sample_store "./adfconfig.yml" "o-123" (document_scp (VStr "enabled"))
    = inl AttributeError /\
  exists cfg,
    construct sample_store "./adfconfig.yml" "o-123" (document_scp (VDict [])) = inr cfg.
Proof.
  split.
  - eapply (proj1 (X5_scp_not_a_mapping sample_store "./adfconfig.yml" "o-123"
                     (document_scp (VStr "enabled")) _ (VStr "enabled")
                     eq_refl eq_refl eq_refl eq_refl eq_refl eq_refl eq_refl eq_refl)).
    + intros s. discriminate.
    + reflexivity.
  - eapply (proj2 (X5_scp_not_a_mapping sample_store "./adfconfig.yml" "o-123"
                     (document_scp (VDict [])) _ (VDict [])
                     eq_refl eq_refl eq_refl eq_refl eq_refl eq_refl eq_refl eq_refl)).
    reflexivity.
Defined.

(** The part of [parse_fields] up to the lookup of [config]. *)
Lemma construct_from_config ps path org d :
  targets_ok d = true -> role_readable d = true ->
  exists T tr dar car,
    doc_targets d = inr T /\ parse_target_regions T = inr tr /\
    doc_deployment_account d = inr dar /\ doc_cross_account_access d = inr car /\
    forall cv,
      doc_config d = inr cv ->
      (forall e, py_get_default cv "protected" (VList []) = inl e ->
                 construct ps path org d = inl e) /\
      (forall e, parse_notification cv = inl e ->
                 construct ps path org d = inl e) /\
      (forall r v,
         parse_notification cv = inr r ->
         doc_extensions d = inr v -> (forall ex, v <> VDict ex) ->
         construct ps path org d = inl AttributeError).
Proof.
  intros Ht Hr.
  destruct (targets_ok_inv d Ht) as (T & tr & dar & H1 & H2 & H3).
  destruct (role_readable_inv d Hr) as (car & H4).
  exists T, tr, dar, car. repeat (split; [assumption | ]).
  intros cv Hc.
  unfold construct, _load_config_file, _parse_config, parse_fields.
  cbn [config_contents set_config_contents].
  rewrite H1, H3. cbn [Exc.bind]. rewrite H2. cbn [Exc.bind].
  rewrite H4, Hc. cbn [Exc.bind].
  split; [ | split].
  - intros e He. rewrite He. reflexivity.
  - intros e He.
    destruct (py_get_default cv "protected" (VList [])) as [e' | prot] eqn:Ep.
    + destruct cv; try discriminate Ep;
        cbn in Ep, He; injection Ep as <-; injection He as <-; reflexivity.
    + cbn [Exc.bind]. rewrite He. reflexivity.
  - intros r v Hn Hv Hnm.
    destruct (parse_notification_inv cv r Hn) as (c & e0 & rest & -> & _).
    cbn [py_get_default Exc.ret Exc.bind]. rewrite Hn. cbn [Exc.bind].
    destruct r as [[nt ne] nc]. rewrite Hv. cbn [Exc.bind].
    unfold _configure_default_extensions_behavior. cbn [extensions].
    destruct v as [ | | | | | ex]; try reflexivity.
    exfalso. exact (Hnm ex eq_refl).
Qed.

(** X6: with indexable targets and readable roles, a [config] that is
    missing, null or anything but a mapping makes construction raise
    [AttributeError] at [self.config.get("protected", [])], before any
    validation. *)
Theorem X6_config_not_a_mapping ps path org d cv :
  targets_ok d = true -> role_readable d = true ->
  doc_config d = inr cv -> (forall c, cv <> VDict c) ->
  construct ps path org d = inl AttributeError.
Proof.
  intros Ht Hr Hc Hnm.
  destruct (construct_from_config ps path org d Ht Hr)
    as (T & tr & dar & car & _ & _ & _ & _ & K).
  destruct (K cv Hc) as (Kp & _ & _).
  apply Kp. destruct cv as [ | | | | | c]; try reflexivity.
  exfalso. exact (Hnm c eq_refl).
Qed.

Lemma X6_config_not_a_mapping_witness :
  construct sample_store "./adfconfig.yml" "o-123"
    (document_roles_config sample_roles (VList [])) = inl AttributeError.
Proof.
  apply (X6_config_not_a_mapping sample_store "./adfconfig.yml" "o-123"
           (document_roles_config sample_roles (VList [])) (VList []));
    try reflexivity.
  intros c. discriminate.
Defined.

(** X7: with indexable targets, readable roles and a [config] mapping,
    the notification step fails on its own terms: no (or a null)
    [main-notification-endpoint] gives [TypeError], an empty list
    [IndexError], a mapping [KeyError], a list whose first entry is
    not a mapping [AttributeError]. *)
Theorem X7_notification_step_errors ps path org d c :
  targets_ok d = true -> role_readable d = true ->
  doc_config d = inr (VDict c) ->
  (entry_field c "main-notification-endpoint" = VNone ->
   construct ps path org d = inl TypeError) /\
  (entry_field c "main-notification-endpoint" = VList [] ->
   construct ps path org d = inl IndexError) /\
  (forall m, entry_field c "main-notification-endpoint" = VDict m ->
             construct ps path org d = inl KeyError) /\
  (forall x rest,
     entry_field c "main-notification-endpoint" = VList (x :: rest) ->
     (forall e, x <> VDict e) ->
     construct ps path org d = inl AttributeError).
Proof.
  intros Ht Hr Hc.
  destruct (construct_from_config ps path org d Ht Hr)
    as (T & tr & dar & car & _ & _ & _ & _ & K).
  destruct (K (VDict c) Hc) as (_ & Kn & _).
  unfold entry_field.
  repeat split.
  - intros H. apply Kn. unfold parse_notification, py_get, py_get_default.
    cbn [Exc.bind Exc.ret]. rewrite H. reflexivity.
  - intros H. apply Kn. unfold parse_notification, py_get, py_get_default.
    cbn [Exc.bind Exc.ret]. rewrite H. reflexivity.
  - intros m H. apply Kn. unfold parse_notification, py_get, py_get_default.
    cbn [Exc.bind Exc.ret]. rewrite H. reflexivity.
  - intros x rest H Hnm. apply Kn. unfold parse_notification, py_get, py_get_default.
    cbn [Exc.bind Exc.ret]. rewrite H. cbn [py_index0 Exc.bind Exc.ret].
    destruct x as [ | | | | | e]; try reflexivity.
    exfalso. exact (Hnm e eq_refl).
Qed.

Lemma X7_notification_step_errors_witness :
  construct sample_store "./adfconfig.yml" "o-123"
    (document_endpoints (VList [])) = inl IndexError /\
  construct sample_store "./adfconfig.yml" "o-123"
    (document_endpoints (VList [VStr "a@b.com"])) = inl AttributeError.
Proof.
  split.
  - eapply (proj1 (proj2 (X7_notification_step_errors sample_store "./adfconfig.yml"
                            "o-123" (document_endpoints (VList [])) _
                            eq_refl eq_refl eq_refl))).
    reflexivity.
  - eapply (proj2 (proj2 (proj2 (X7_notification_step_errors sample_store
                                   "./adfconfig.yml" "o-123"
                                   (document_endpoints (VList [VStr "a@b.com"])) _
                                   eq_refl eq_refl eq_refl)))).
    + reflexivity.
    + intros e. discriminate.
Defined.

(** X8: an [extensions] entry that is there but is not a mapping (a null
    one, say) makes the defaulting raise [AttributeError] at
    [self.extensions.keys()], once the rest of the document was read. *)
Theorem X8_extensions_not_a_mapping ps path org d v :
  targets_ok d = true -> role_readable d = true -> notification_ok d = true ->
  doc_extensions d = inr v -> (forall ex, v <> VDict ex) ->
  construct ps path org d = inl AttributeError.
Proof.
  intros Ht Hr Hn Hv Hnm.
  destruct (construct_from_config ps path org d Ht Hr)
    as (T & tr & dar & car & _ & _ & _ & _ & K).
  destruct (notification_ok_inv d Hn) as (c & e & rest & Hc & Hne).
  destruct (K (VDict c) Hc) as (_ & _ & Ke).
  exact (Ke _ v (parse_notification_intro c e rest Hne) Hv Hnm).
Qed.

Lemma X8_extensions_not_a_mapping_witness :
  construct sample_store "./adfconfig.yml" "o-123" (document_extensions VNone)
    = inl AttributeError.
Proof.
  apply (X8_extensions_not_a_mapping sample_store "./adfconfig.yml" "o-123"
           (document_extensions VNone) VNone); try reflexivity.
  intros ex. discriminate.
Defined.

(* ================================================================== *)
(** ** The object construction returns *)
(* ================================================================== *)

Lemma validate_success self self' :
  _validate self = inr self' -> self' = validated self.
Proof.
  unfold _validate. intros H. bind_inv H. bind_inv H. bind_inv H.
  injection H as <-. unfold validated.
  unfold check_deployment_account_region in E1.
  destruct (deployment_account_region self) as [ | | | | [ | x [ | y l]] | ];
    try discriminate E1; injection E1 as <-; reflexivity.
Qed.

Lemma validated_frame self :
  parameters_client (validated self) = parameters_client self /\
  config_path (validated self) = config_path self /\
  organization_id (validated self) = organization_id self /\
  client_deployment_region (validated self) = client_deployment_region self /\
  protected (validated self) = protected self /\
  config_contents (validated self) = config_contents self.
Proof.
  unfold validated, normalize_target_regions.
  destruct (deployment_account_region self) as [ | | | | [ | x [ | y l]] | ];
    cbn [target_regions set_deployment_account_region];
    destruct (is_list (target_regions self)); repeat split; reflexivity.
Qed.

(** X9: what every constructed object holds: the client, path and
    organization id it was given and no deployment-region client yet;
    [target_regions] is a list; [cross_account_access_role] is the
    document's [roles.cross-account-access] and is not [None]; [config] is
    the document's [config] mapping, with a [moves] entry, and [protected]
    is its [protected] entry, or the empty list without one. *)
Theorem X9_constructed_object ps path org d cfg :
  construct ps path org d = inr cfg ->
  parameters_client cfg = ps /\
  config_path cfg = path /\
  organization_id cfg = VStr org /\
  client_deployment_region cfg = None /\
  is_list (target_regions cfg) = true /\
  is_none (cross_account_access_role cfg) = false /\
  doc_cross_account_access d = inr (cross_account_access_role cfg) /\
  doc_config d = inr (config cfg) /\
  exists c,
    config cfg = VDict c /\
    is_none (entry_field c "moves") = false /\
    protected cfg = match dict_get c "protected" with
                    | Some v => v
                    | None => VList []
                    end.
Proof.
  intros H.
  destruct (construct_inv ps path org d cfg H)
    as (T & tr & dar & car & c & e & rest & ex & R & V).
  pose proof (construct_valid_inv ps path org d cfg H) as Valid.
  unfold valid_document in Valid.
  repeat (apply andb_true_iff in Valid; destruct Valid as [Valid ?]).
  apply validate_success in V. subst cfg.
  set (st := parsed_of (set_config_contents (init_attributes ps path org) d)
               tr dar car c e ex).
  destruct (validated_frame st) as (-> & -> & -> & -> & -> & _).
  destruct (validated_others st) as (_ & _ & _ & _ & -> & ->).
  rewrite validated_target_regions.
  repeat (split; [reflexivity | ]).
  split; [destruct (is_list (target_regions st)) eqn:El; [exact El | reflexivity] | ].
  cbn [st parsed_of parsed cross_account_access_role config protected].
  destruct (role_ok_inv d) as (car' & Hcar & Hcn); [assumption | ].
  rewrite (reads_cross_account_access _ _ _ _ _ _ _ _ _ R) in Hcar.
  injection Hcar as <-.
  split; [exact Hcn | ].
  split; [exact (reads_cross_account_access _ _ _ _ _ _ _ _ _ R) | ].
  split; [exact (reads_config _ _ _ _ _ _ _ _ _ R) | ].
  exists c. split; [reflexivity | ]. split; [ | reflexivity].
  apply (moves_ok_inv d); [assumption | exact (reads_config _ _ _ _ _ _ _ _ _ R)].
Qed.

Lemma X9_constructed_object_witness :
  exists cfg,
    construct sample_store "./adfconfig.yml" "o-123" (document_targets (VStr "eu-west-1"))
      = inr cfg /\
    is_list (target_regions cfg) = true /\
    organization_id cfg = VStr "o-123".
Proof.
  eexists. split; [reflexivity | ].
  destruct (X9_constructed_object sample_store "./adfconfig.yml" "o-123"
              (document_targets (VStr "eu-west-1")) _ eq_refl)
    as (_ & _ & Ho & _ & Hl & _).
  split; [exact Hl | exact Ho].
Defined.

Lemma dict_set_keeps_others kvs k v k' :
  k <> k' -> dict_get (dict_set kvs k v) k' = dict_get kvs k'.
Proof. apply dict_get_set_other. Qed.

Lemma dict_set_present_keys kvs k v :
  dict_mem kvs k = true -> map fst (dict_set kvs k v) = map fst kvs.
Proof.
  unfold dict_mem. induction kvs as [ | [k0 v0] kvs IH]; cbn; [discriminate | ].
  destruct (String.eqb k0 k) eqn:E; cbn; [reflexivity | ].
  intros H. rewrite IH by exact H. reflexivity.
Qed.

(** X10: the defaulting of the extensions shows through
    [config_contents]: when the loaded document has an [extensions] key,
    [config_contents] ends with the defaulted mapping under that key (the
    same dict object was updated) and with every other key as loaded, in
    the same order; without the key [config_contents] is the loaded
    document unchanged. *)
Theorem X10_config_contents_shares_extensions ps path org d cfg :
  construct ps path org d = inr cfg ->
  exists top,
    d = VDict top /\
    (dict_get top "extensions" = None -> config_contents cfg = d) /\
    (forall v,
       dict_get top "extensions" = Some v ->
       exists top',
         config_contents cfg = VDict top' /\
         dict_get top' "extensions" = Some (extensions cfg) /\
         (forall k, k <> "extensions" -> dict_get top' k = dict_get top k) /\
         map fst top' = map fst top).
Proof.
  intros H.
  destruct (construct_inv ps path org d cfg H)
    as (T & tr & dar & car & c & e & rest & ex & R & V).
  apply validate_success in V. subst cfg.
  set (st := parsed_of (set_config_contents (init_attributes ps path org) d)
               tr dar car c e ex).
  destruct (validated_frame st) as (_ & _ & _ & _ & _ & ->).
  destruct (validated_others st) as (_ & _ & _ & -> & _ & _).
  cbn [st parsed_of parsed config_contents extensions set_config_contents].
  pose proof (reads_config _ _ _ _ _ _ _ _ _ R) as Hc.
  destruct d as [ | | | | | top]; try discriminate Hc.
  exists top. split; [reflexivity | ]. unfold alias_extensions, dict_mem. split.
  - intros Hnone. rewrite Hnone. reflexivity.
  - intros v Hv. rewrite Hv.
    exists (dict_set top "extensions" (VDict (with_default_extensions ex))).
    split; [reflexivity | ]. split; [apply dict_get_set_same | ].
    split; [intros k Hk; apply dict_get_set_other; congruence | ].
    apply dict_set_present_keys. unfold dict_mem. rewrite Hv. reflexivity.
Qed.

Lemma X10_config_contents_shares_extensions_witness :
  exists cfg top',
    construct sample_store "./adfconfig.yml" "o-123" (document_extensions (VDict []))
      = inr cfg /\
    config_contents cfg = VDict top' /\
    dict_get top' "extensions" = Some (extensions cfg).
Proof.
  eexists.
  destruct (X10_config_contents_shares_extensions sample_store "./adfconfig.yml" "o-123"
              (document_extensions (VDict [])) _ eq_refl)
    as (top & Hd & _ & Hsome).
  injection Hd as <-.
  destruct (Hsome (VDict []) eq_refl) as (top' & Hc & He & _).
  exists top'. split; [reflexivity | ]. split; [exact Hc | exact He].
Defined.

Lemma dict_set_absent kvs k v :
  dict_get kvs k = None -> dict_set kvs k v = (kvs ++ [(k, v)])%list.
Proof.
  induction kvs as [ | [k0 v0] kvs IH]; cbn; [reflexivity | ].
  destruct (String.eqb k0 k); [discriminate | ].
  intros H. rewrite IH by exact H. reflexivity.
Qed.



(* ================================================================== *)
(** ** Persistence, continued *)
(* ================================================================== *)

Section PersistMore.

Variable ADF_VERSION : string.
Variable py_repr : PyVal -> string.
Variable object_repr : ParameterStore -> string.

Lemma extension_calls_keys client exts :
  map put_key (flat_map (extension_calls py_repr client) exts) =
  flat_map attribute_keys exts.
Proof.
  induction exts as [ | [name attrs] exts IH]; [reflexivity | ].
  cbn [flat_map]. rewrite map_app, IH. f_equal.
  unfold extension_calls, attribute_keys. cbn [snd fst].
  destruct attrs; try reflexivity. rewrite map_map. reflexivity.
Qed.

(** X12: on an object whose extensions all have a mapping of attributes,
    [store_config] raises nothing and makes, in this order, the seven
    attribute calls and the extension calls through the primary client,
    then the two cross-region calls through the client of the deployment
    region: nine calls plus one per extension attribute.  The object it
    returns differs only in [client_deployment_region]. *)
Theorem X12_store_config_calls self exts :
  extensions self = VDict exts ->
  Forall (fun extension => is_mapping (snd extension)) exts ->
  store_config ADF_VERSION py_repr object_repr self =
    ((attribute_calls py_repr self ++
      flat_map (extension_calls py_repr (parameters_client self)) exts ++
      cross_region_calls ADF_VERSION self)%list,
     inr (set_client_deployment_region self
            (Some {| region := deployment_account_region self |}))) /\
  length (IO.trace (store_config ADF_VERSION py_repr object_repr self)) =
    (9 + length (flat_map attribute_keys exts))%nat.
Proof.
  intros He Hall.
  assert (E : store_config ADF_VERSION py_repr object_repr self =
              ((attribute_calls py_repr self ++
                flat_map (extension_calls py_repr (parameters_client self)) exts ++
                cross_region_calls ADF_VERSION self)%list,
               inr (set_client_deployment_region self
                      (Some {| region := deployment_account_region self |})))).
  { unfold store_config, _store_config.
    rewrite store_attributes_calls, (store_extensions_calls py_repr self exts He Hall).
    unfold IO.bind. cbn [fst snd]. rewrite <- app_assoc. reflexivity. }
  split; [exact E | ].
  rewrite E. cbn [IO.trace fst]. rewrite !length_app.
  rewrite <- (extension_calls_keys (parameters_client self) exts), length_map.
  cbn [attribute_calls cross_region_calls length map]. lia.
Qed.

(** The loop over the extensions stops at the first one whose attributes
    cannot be iterated over. *)
Lemma for_each_extension_stops client good name v rest :
  Forall (fun extension => is_mapping (snd extension)) good ->
  not_iterable v = true ->
  IO.for_each (good ++ (name, v) :: rest)
    (fun '(extension, attributes) =>
       IO.bind (IO.lift (py_iter attributes))
         (fun elements =>
            IO.for_each elements
              (fun attribute =>
                 IO.bind (IO.lift (py_getitem attributes attribute))
                   (fun x => put_parameter client
                               (extension_key py_repr extension attribute)
                               (VStr (py_str py_repr x)))))) =
  (flat_map (extension_calls py_repr client) good, inl TypeError).
Proof.
  intros Hall Hv.
  induction Hall as [ | [name' attrs] good [attributes Hattrs] Hall IH].
  - cbn [app IO.for_each flat_map].
    destruct v; try discriminate Hv; reflexivity.
  - cbn [snd] in Hattrs. subst attrs.
    cbn [app IO.for_each flat_map]. rewrite IH.
    cbn [py_iter]. unfold Exc.ret. rewrite bind_lift_value.
    rewrite store_extension_attributes by (intros kv H; apply in_map; exact H).
    reflexivity.
Qed.

(** X13: when the attributes of some extension are [None], a boolean or
    a number (an extension named in the document with nothing under it),
    [store_config] raises [TypeError] at [for attribute in attributes]:
    the seven attribute calls and the calls of the extensions before that
    one have been made, the extensions after it and the whole cross-region
    pass have not, and the object is left as it was. *)
Theorem X13_store_config_stops_at_bad_extension self good name v rest :
  extensions self = VDict (good ++ (name, v) :: rest) ->
  Forall (fun extension => is_mapping (snd extension)) good ->
  not_iterable v = true ->
  store_config ADF_VERSION py_repr object_repr self =
    ((attribute_calls py_repr self ++
      flat_map (extension_calls py_repr (parameters_client self)) good)%list,
     inl TypeError) /\
  self_after ADF_VERSION py_repr object_repr self = self.
Proof.
  intros He Hall Hv.
  assert (E : store_config ADF_VERSION py_repr object_repr self =
              ((attribute_calls py_repr self ++
                flat_map (extension_calls py_repr (parameters_client self)) good)%list,
               inl TypeError)).
  { unfold store_config, _store_config. rewrite store_attributes_calls.
    unfold store_extensions. rewrite He. cbn [py_items]. unfold Exc.ret.
    rewrite bind_lift_value.
    rewrite (for_each_extension_stops (parameters_client self) good name v rest Hall Hv).
    reflexivity. }
  split; [exact E | ].
  unfold self_after. rewrite E. reflexivity.
Qed.

(** X14: after a [store_config] that raised nothing, the store of the
    deployment region holds [ADF_VERSION] under [adf_version] and the role,
    as the object has it, under [cross_account_access_role], whatever the
    store held before. *)
Theorem X14_replica_read_back self self' s :
  IO.result (store_config ADF_VERSION py_repr object_repr self) = inr self' ->
  let after := store_run (IO.trace (store_config ADF_VERSION py_repr object_repr self)) s in
  after (deployment_account_region self) "adf_version" = Some (VStr ADF_VERSION) /\
  after (deployment_account_region self) "cross_account_access_role"
    = Some (cross_account_access_role self).
Proof.
  intros H after. subst after.
  unfold store_config, IO.result, IO.bind, IO.trace in *.
  destruct (snd (_store_config py_repr object_repr self)); [discriminate H | ].
  cbn [fst snd].
  change (fst (_store_cross_region_config ADF_VERSION self))
    with (cross_region_calls ADF_VERSION self).
  rewrite !store_run_app.
  unfold store_run at 1 3, cross_region_calls. cbn [fold_left].
  unfold store_put, written_by.
  cbn [put_client put_key put_value region].
  rewrite !PyVal_eqb_refl. split; reflexivity.
Qed.

End PersistMore.

Lemma X12_store_config_calls_witness :
  length (IO.trace (store_config "4.0.0" (fun _ => "repr") (fun _ => "object")
                      object_with_extensions)) = 11%nat.
Proof.
  apply (X12_store_config_calls "4.0.0" (fun _ => "repr") (fun _ => "object")
           object_with_extensions
           [("terraform", VDict [("enabled", VBool true); ("version", VStr "1.5")])]).
  - reflexivity.
  - constructor; [eexists; reflexivity | constructor].
Defined.

Lemma X13_store_config_stops_at_bad_extension_witness :
  store_config "4.0.0" (fun _ => "repr") (fun _ => "object") object_null_attributes =
    ((attribute_calls (fun _ => "repr") object_null_attributes ++
      flat_map (extension_calls (fun _ => "repr") (parameters_client object_null_attributes))
        [("cdk", VDict [("enabled", VBool true)])])%list,
     inl TypeError).
Proof.
  apply (X13_store_config_stops_at_bad_extension "4.0.0" (fun _ => "repr")
           (fun _ => "object") object_null_attributes
           [("cdk", VDict [("enabled", VBool true)])] "terraform" VNone []).
  - reflexivity.
  - constructor; [eexists; reflexivity | constructor].
  - reflexivity.
Defined.

Lemma X14_replica_read_back_witness :
  store_run
    (IO.trace (store_config "4.0.0" (fun _ => "repr") (fun _ => "object")
                 object_with_extensions))
    empty_store (VStr "eu-central-1") "adf_version" = Some (VStr "4.0.0").
Proof.
  exact (proj1 (X14_replica_read_back "4.0.0" (fun _ => "repr") (fun _ => "object")
                  object_with_extensions _ empty_store eq_refl)).
Defined.

Section PersistRead.

Variable ADF_VERSION : string.
Variable py_repr : PyVal -> string.
Variable object_repr : ParameterStore -> string.

Lemma store_config_mappings self exts :
  extensions self = VDict exts ->
  Forall (fun extension => is_mapping (snd extension)) exts ->
  IO.trace (store_config ADF_VERSION py_repr object_repr self) =
    (attribute_calls py_repr self ++
     flat_map (extension_calls py_repr (parameters_client self)) exts ++
     cross_region_calls ADF_VERSION self)%list.
Proof.
  intros He Hall. unfold store_config, _store_config.
  rewrite store_attributes_calls, (store_extensions_calls py_repr self exts He Hall).
  unfold IO.bind, IO.trace. cbn [fst snd]. rewrite <- app_assoc. reflexivity.
Qed.

Lemma store_run_untouched calls s r k :
  Forall (fun call => written_by call r k = false) calls ->
  store_run calls s r k = s r k.
Proof.
  unfold store_run. intros H. revert s.
  induction H as [ | call calls Hc _ IH]; intros s; [reflexivity | ].
  cbn [fold_left]. rewrite IH. unfold store_put. rewrite Hc. reflexivity.
Qed.

Lemma extension_calls_untouched client exts r k :
  (forall x, String.eqb k (String "/" x) = false) ->
  Forall (fun call => written_by call r k = false)
    (flat_map (extension_calls py_repr client) exts).
Proof.
  intros Hk. apply Forall_forall. intros call Hin.
  apply in_flat_map in Hin. destruct Hin as ([name attrs] & _ & Hin).
  unfold extension_calls in Hin. cbn [snd fst] in Hin.
  destruct attrs; try contradiction.
  apply in_map_iff in Hin. destruct Hin as (kv & <- & _).
  unfold written_by. cbn [put_key]. cbn [append]. rewrite Hk. apply andb_false_r.
Qed.

Ltac read_attribute He Hall :=
  rewrite (store_config_mappings _ _ He Hall), !store_run_app;
  rewrite (store_run_untouched (cross_region_calls _ _))
    by (repeat constructor; unfold written_by; cbn; apply andb_false_r);
  rewrite (store_run_untouched (flat_map _ _))
    by (apply extension_calls_untouched; intros x; reflexivity);
  unfold store_run, attribute_calls; cbn [map fold_left fst snd];
  unfold store_put, written_by; cbn [put_client put_key put_value];
  rewrite !PyVal_eqb_refl; reflexivity.

(** X15: after a [store_config] on an object whose extensions all have a
    mapping of attributes, the store of the primary client's region holds,
    under each of [organization_id], [config], [deployment_account_region],
    [notification_channel], [protected] and [target_regions], the [str()] of
    that attribute.  Under [cross_account_access_role] it holds the [str()]
    of the role, unless the deployment region is the primary region: then
    the cross-region call came last and the key holds the role itself. *)
Theorem X15_primary_read_back self exts s :
  extensions self = VDict exts ->
  Forall (fun extension => is_mapping (snd extension)) exts ->
  let after := store_run (IO.trace (store_config ADF_VERSION py_repr object_repr self)) s in
  let r := region (parameters_client self) in
  after r "organization_id" = Some (VStr (py_str py_repr (organization_id self))) /\
  after r "config" = Some (VStr (py_str py_repr (config self))) /\
  after r "deployment_account_region"
    = Some (VStr (py_str py_repr (deployment_account_region self))) /\
  after r "notification_channel"
    = Some (VStr (py_str py_repr (notification_channel self))) /\
  after r "protected" = Some (VStr (py_str py_repr (protected self))) /\
  after r "target_regions" = Some (VStr (py_str py_repr (target_regions self))) /\
  after r "cross_account_access_role"
    = Some (if PyVal_eqb r (deployment_account_region self)
            then cross_account_access_role self
            else VStr (py_str py_repr (cross_account_access_role self))).
Proof.
  intros He Hall after r. subst after r.
  repeat split; try (read_attribute He Hall).
  rewrite (store_config_mappings _ _ He Hall), !store_run_app.
  unfold store_run at 1, cross_region_calls. cbn [fold_left].
  unfold store_put at 1 2, written_by. cbn [put_client put_key put_value region].
  change ("cross_account_access_role" =? "cross_account_access_role") with true.
  change ("cross_account_access_role" =? "adf_version") with false.
  rewrite andb_true_r, andb_false_r.
  destruct (PyVal_eqb (region (parameters_client self)) (deployment_account_region self));
    [reflexivity | ].
  rewrite (store_run_untouched (flat_map _ _))
    by (apply extension_calls_untouched; intros x; reflexivity).
  unfold store_run, attribute_calls. cbn [map fold_left fst snd].
  unfold store_put, written_by. cbn [put_client put_key put_value].
  rewrite !PyVal_eqb_refl. reflexivity.
Qed.

End PersistRead.

Lemma X15_primary_read_back_witness :
  store_run
    (IO.trace (store_config "4.0.0" (fun _ => "repr") (fun _ => "object")
                 object_with_extensions))
    empty_store (region (parameters_client object_with_extensions)) "organization_id"
  = Some (VStr (py_str (fun _ => "repr") (organization_id object_with_extensions))).
Proof.
  assert (He : extensions object_with_extensions =
               VDict [("terraform", VDict [("enabled", VBool true); ("version", VStr "1.5")])])
    by reflexivity.
  assert (Hall : Forall (fun extension => is_mapping (snd extension))
                   [("terraform", VDict [("enabled", VBool true); ("version", VStr "1.5")])])
    by (constructor; [eexists; reflexivity | constructor]).
  exact (proj1 (X15_primary_read_back "4.0.0" (fun _ => "repr") (fun _ => "object")
                  object_with_extensions _ empty_store He Hall)).
Defined.

(* ================================================================== *)
(** ** Extension keys *)
(* ================================================================== *)

Lemma append_assoc_string (a b c : string) : ((a ++ b) ++ c)%string = (a ++ (b ++ c))%string.
Proof. induction a as [ | ch a IH]; cbn; [reflexivity | rewrite IH; reflexivity]. Qed.

Lemma slash_split e e' a a' :
  has_slash e = false -> has_slash e' = false ->
  (e ++ String "/" a)%string = (e' ++ String "/" a')%string ->
  e = e' /\ a = a'.
Proof.
  revert e'. induction e as [ | c e IH]; intros [ | c' e'] He He' H; cbn in *.
  - injection H as ->. split; reflexivity.
  - injection H as <- _. cbn in He'. discriminate He'.
  - injection H as -> _. cbn in He. discriminate He.
  - injection H as <- H.
    apply orb_false_elim in He. apply orb_false_elim in He'.
    destruct (IH e' (proj2 He) (proj2 He') H) as [-> ->]. split; reflexivity.
Qed.

(** X16: two attributes get the same parameter key only if they are the
    same attribute of the same extension, as long as the extension names
    have no ["/"] in them; with a ["/"] in an extension name keys do
    collide: attribute [a] of extension [e/x] and attribute [x/a] of
    extension [e] share one key. *)
Theorem X16_extension_keys py_repr :
  (forall e a e' a',
     has_slash e = false -> has_slash e' = false ->
     extension_key py_repr e (VStr a) = extension_key py_repr e' (VStr a') ->
     e = e' /\ a = a') /\
  (forall e x a,
     extension_key py_repr (e ++ "/" ++ x) (VStr a) =
     extension_key py_repr e (VStr (x ++ "/" ++ a))).
Proof.
  split.
  - intros e a e' a' He He' H. unfold extension_key in H. cbn [py_str append] in H.
    injection H as H. exact (slash_split e e' a a' He He' H).
  - intros e x a. unfold extension_key. cbn [py_str].
    f_equal. rewrite !append_assoc_string. reflexivity.
Qed.

Lemma X16_extension_keys_witness :
  ("terraform" = "terraform" /\ "enabled" = "enabled") /\
  extension_key (fun _ => "repr") "cdk/v2" (VStr "enabled") =
  extension_key (fun _ => "repr") "cdk" (VStr "v2/enabled").
Proof.
  split.
  - apply (proj1 (X16_extension_keys (fun _ => "repr")) "terraform" "enabled"
             "terraform" "enabled"); reflexivity.
  - exact (proj2 (X16_extension_keys (fun _ => "repr")) "cdk" "v2" "enabled").
Defined.

(* ================================================================== *)
(** ** The arguments of [__init__] *)
(* ================================================================== *)

Lemma construct_frame ps path org d cfg :
  construct ps path org d = inr cfg ->
  parameters_client cfg = ps /\ config_path cfg = path /\ organization_id cfg = VStr org.
Proof.
  intros H.
  destruct (construct_inv ps path org d cfg H)
    as (T & tr & dar & car & c & e & rest & ex & _ & V).
  apply validate_success in V. subst cfg.
  destruct (validated_frame
              (parsed_of (set_config_contents (init_attributes ps path org) d)
                 tr dar car c e ex)) as (-> & -> & -> & _).
  repeat split.
Qed.

(** X17: an object [__init__] returns has the parameter store that was
    passed in, or else one for the [AWS_REGION] of the environment; the
    path that was passed in, or [./adfconfig.yml] when none or an empty one
    was; and the [ORGANIZATION_ID] of the environment.  With a parameter
    store passed in, [AWS_REGION] is not looked at. *)
Theorem X17_init_arguments env parameter_store config_path0 d cfg :
  __init__ env parameter_store config_path0 d = inr cfg ->
  config_path cfg = resolved_config_path config_path0 /\
  (forall ps, parameter_store = Some ps -> parameters_client cfg = ps) /\
  (parameter_store = None ->
   exists r, AWS_REGION env = Some r /\ parameters_client cfg = {| region := VStr r |}) /\
  (exists org, ORGANIZATION_ID env = Some org /\ organization_id cfg = VStr org) /\
  (forall ps env',
     parameter_store = Some ps -> ORGANIZATION_ID env' = ORGANIZATION_ID env ->
     __init__ env' parameter_store config_path0 d = inr cfg).
Proof.
  unfold __init__, resolved_config_path. intros H.
  destruct parameter_store as [ps | ].
  - cbn [Exc.bind Exc.ret] in H.
    destruct (ORGANIZATION_ID env) as [org | ] eqn:Eo; [ | discriminate H].
    cbn [environ_get Exc.bind Exc.ret] in H.
    destruct (construct_frame _ _ _ _ _ H) as (Hp & Hc & Ho).
    split; [exact Hc | ].
    split; [intros ps' [= <-]; exact Hp | ].
    split; [discriminate | ].
    split; [exists org; split; [reflexivity | exact Ho] | ].
    intros ps' env' [= <-] Henv. rewrite Henv. cbn [environ_get Exc.bind Exc.ret].
    exact H.
  - destruct (AWS_REGION env) as [r | ]; [ | discriminate H].
    cbn [environ_get Exc.bind Exc.ret] in H.
    destruct (ORGANIZATION_ID env) as [org | ] eqn:Eo; [ | discriminate H].
    cbn [environ_get Exc.bind Exc.ret] in H.
    destruct (construct_frame _ _ _ _ _ H) as (Hp & Hc & Ho).
    split; [exact Hc | ].
    split; [discriminate | ].
    split; [intros _; exists r; split; [reflexivity | exact Hp] | ].
    split; [exists org; split; [reflexivity | exact Ho] | ].
    discriminate.
Qed.

Lemma X17_init_arguments_witness :
  exists cfg,
    __init__ {| AWS_REGION := Some "eu-west-2"; ORGANIZATION_ID := Some "o-123" |}
      None (Some EmptyString) sample_document = inr cfg /\
    config_path cfg = "./adfconfig.yml" /\
    parameters_client cfg = {| region := VStr "eu-west-2" |}.
Proof.
  eexists. split; [reflexivity | ].
  destruct (X17_init_arguments
              {| AWS_REGION := Some "eu-west-2"; ORGANIZATION_ID := Some "o-123" |}
              None (Some EmptyString) sample_document _ eq_refl)
    as (Hc & _ & Hr & _).
  split; [exact Hc | ].
  destruct (Hr eq_refl) as (r & Er & Hp). injection Er as <-. exact Hp.
Defined.

(* ================================================================== *)
(** ** Validating again *)
(* ================================================================== *)

(** X18: validation can be run again on what it returned, with the same
    result, when the deployment account region was not given as a list. *)
Theorem X18_validate_again self self' :
  _validate self = inr self' ->
  is_list (deployment_account_region self) = false ->
  _validate self' = inr self'.
Proof.
  intros H Hd. pose proof (validate_success self self' H) as ->.
  unfold _validate in H. bind_inv H. bind_inv H. clear H.
  destruct u, u0.
  assert (Hv : validated self = normalize_target_regions self).
  { unfold validated. destruct (deployment_account_region self) as [ | | | | l | ];
      try reflexivity. discriminate Hd. }
  rewrite Hv. unfold normalize_target_regions.
  destruct (is_list (target_regions self)) eqn:El.
  - unfold _validate. rewrite E, E0. cbn [Exc.bind].
    unfold check_deployment_account_region.
    destruct (deployment_account_region self) as [ | | | | l | ]; try discriminate Hd;
      cbn [Exc.bind Exc.ret]; unfold normalize_target_regions; rewrite El; reflexivity.
  - unfold _validate.
    assert (E' : check_required (set_target_regions self (VList [target_regions self]))
                 = inr tt).
    { unfold check_required in *. cbn [config set_target_regions cross_account_access_role
                                       deployment_account_region organization_id
                                       target_regions] in *.
      destruct (py_get (config self) "moves") as [ | moves]; [discriminate E | ].
      cbn [Exc.bind] in *.
      destruct (py_get (config self) "main-notification-endpoint") as [ | endpoint];
        [discriminate E | ].
      cbn [Exc.bind existsb is_none] in *.
      destruct (is_none (cross_account_access_role self)); [discriminate E | ].
      destruct (is_none (config self)); [discriminate E | ].
      destruct (is_none (deployment_account_region self)); [discriminate E | ].
      destruct (is_none (organization_id self)); [discriminate E | ].
      destruct (is_none (target_regions self)); [discriminate E | ].
      exact E. }
    rewrite E'. cbn [Exc.bind].
    change (check_scp (set_target_regions self (VList [target_regions self])))
      with (check_scp self).
    rewrite E0. cbn [Exc.bind].
    unfold check_deployment_account_region.
    cbn [deployment_account_region set_target_regions].
    destruct (deployment_account_region self) as [ | | | | l | ]; try discriminate Hd;
      reflexivity.
Qed.

Lemma X18_validate_again_witness :
  _validate (validated object_scalar_targets) = inr (validated object_scalar_targets).
Proof.
  apply (X18_validate_again object_scalar_targets); reflexivity.
Defined.

(* ================================================================== *)
(** ** Construction, then persistence *)
(* ================================================================== *)

Lemma with_default_extensions_shape ex :
  with_default_extensions ex =
    if dict_mem ex "terraform"
    then ex
    else (ex ++ [("terraform", VDict [("enabled", VBool false)])])%list.
Proof.
  unfold with_default_extensions, AVAILABLE_EXTENSIONS. cbn [filter].
  unfold dict_mem. destruct (dict_get ex "terraform") eqn:Et; cbn [negb fold_left].
  - reflexivity.
  - apply dict_set_absent. exact Et.
Qed.

(** X19: for a constructed object, when every extension of the document
    has a mapping of attributes, [store_config] raises nothing, and the
    keys it writes are the seven attribute names, the keys of the
    document's extensions (followed by [/adf/extensions/terraform/enabled]
    when the document names no [terraform] extension), then [adf_version]
    and [cross_account_access_role]. *)
Theorem X19_store_after_construct ADF_VERSION py_repr object_repr ps path org d cfg ex :
  construct ps path org d = inr cfg ->
  doc_extensions d = inr (VDict ex) ->
  Forall (fun extension => is_mapping (snd extension)) ex ->
  IO.result (store_config ADF_VERSION py_repr object_repr cfg) =
    inr (set_client_deployment_region cfg
           (Some {| region := deployment_account_region cfg |})) /\
  map put_key (IO.trace (store_config ADF_VERSION py_repr object_repr cfg)) =
    (["organization_id"; "config"; "deployment_account_region";
      "notification_channel"; "protected"; "target_regions";
      "cross_account_access_role"] ++
     flat_map attribute_keys ex ++
     (if dict_mem ex "terraform" then [] else ["/adf/extensions/terraform/enabled"]) ++
     ["adf_version"; "cross_account_access_role"])%list.
Proof.
  intros H He Hall.
  destruct (construct_inv ps path org d cfg H)
    as (T & tr & dar & car & c & e & rest & ex' & R & V).
  apply validate_success in V.
  rewrite (reads_extensions _ _ _ _ _ _ _ _ _ R) in He. injection He as ->.
  assert (Hext : extensions cfg = VDict (with_default_extensions ex)).
  { subst cfg.
    destruct (validated_others
                (parsed_of (set_config_contents (init_attributes ps path org) d)
                   tr dar car c e ex)) as (_ & _ & _ & -> & _ & _).
    reflexivity. }
  assert (Hall' : Forall (fun extension => is_mapping (snd extension))
                    (with_default_extensions ex)).
  { rewrite with_default_extensions_shape. destruct (dict_mem ex "terraform");
      [exact Hall | ].
    apply Forall_app. split; [exact Hall | ].
    constructor; [eexists; reflexivity | constructor]. }
  assert (E : store_config ADF_VERSION py_repr object_repr cfg =
              ((attribute_calls py_repr cfg ++
                flat_map (extension_calls py_repr (parameters_client cfg))
                  (with_default_extensions ex) ++
                cross_region_calls ADF_VERSION cfg)%list,
               inr (set_client_deployment_region cfg
                      (Some {| region := deployment_account_region cfg |})))).
  { unfold store_config, _store_config.
    rewrite store_attributes_calls,
      (store_extensions_calls py_repr cfg (with_default_extensions ex) Hext Hall').
    unfold IO.bind. cbn [fst snd]. rewrite <- app_assoc. reflexivity. }
  rewrite E. split; [reflexivity | ].
  cbn [IO.trace fst]. rewrite !map_app, extension_calls_keys.
  rewrite with_default_extensions_shape.
  destruct (dict_mem ex "terraform").
  - reflexivity.
  - rewrite flat_map_app. cbn. rewrite <- app_assoc. reflexivity.
Qed.

Lemma X19_store_after_construct_witness :
  exists cfg,
    construct sample_store "./adfconfig.yml" "o-123" sample_document = inr cfg /\
    map put_key (IO.trace (store_config "4.0.0" (fun _ => "repr") (fun _ => "object") cfg)) =
      ["organization_id"; "config"; "deployment_account_region";
       "notification_channel"; "protected"; "target_regions";
       "cross_account_access_role"; "/adf/extensions/terraform/enabled";
       "adf_version"; "cross_account_access_role"].
Proof.
  eexists. split; [reflexivity | ].
  apply (X19_store_after_construct "4.0.0" (fun _ => "repr") (fun _ => "object")
           sample_store "./adfconfig.yml" "o-123" sample_document _ [] eq_refl eq_refl).
  constructor.
Defined.
